(** * Gridsync: the main-window coordinator and the preference store

    A shallow embedding of [gridsync/gui/main_window.py] and
    [gridsync/preferences.py].  Qt widgets are modelled by the part of
    their state that the Python code reads or writes (enabled and checked
    flags, the current widget of the stacked widget, the items of the
    combo box); Python exceptions are modelled by an outcome type that
    keeps the state reached when the exception was raised. *)

From stdpp Require Import gmap strings list.
From Stdlib Require Import ZArith Ascii String.

Open Scope string_scope.

(** ** Python values *)

(** Truth value testing, as used by [if x] and [not x]. *)
Class Truthy (A : Type) := truthy : A -> bool.

#[global] Instance truthy_bool : Truthy bool := fun b => b.
#[global] Instance truthy_int : Truthy Z := fun n => negb (n =? 0)%Z.
#[global] Instance truthy_str : Truthy string :=
  fun s => match s with EmptyString => false | String _ _ => true end.
#[global] Instance truthy_list {A} : Truthy (list A) :=
  fun l => match l with [] => false | _ :: _ => true end.
(** [None] is false; any other object is tested by its own rule. *)
#[global] Instance truthy_optional {A} `{Truthy A} : Truthy (option A) :=
  fun o => match o with None => false | Some a => truthy a end.
#[global] Instance truthy_dict {K} `{Countable K} {V} : Truthy (gmap K V) :=
  fun m => negb (bool_decide (m = ∅)).

(** [str.lower] on the ASCII range; other bytes are left as they are.
    The window only compares the result with "false", and no character
    outside the ASCII range has one of the letters of "false" as its
    lower-case form, so the comparison is the one Python makes. *)
Definition ascii_lower (c : ascii) : ascii :=
  let n := nat_of_ascii c in
  if ((65 <=? n) && (n <=? 90))%nat then ascii_of_nat (n + 32) else c.

Fixpoint lower (s : string) : string :=
  match s with
  | EmptyString => EmptyString
  | String c s' => String (ascii_lower c) (lower s')
  end.

(** ** Folder models shown by a view *)

(** One row of a folder view's model: the data stored under
    [Qt.UserRole] in column 1 (status) and column 2 (last modified). *)
Record Row := { status : option Z; mtime : option Z }.

Definition Model := list Row.

(** ** The scan of [MainWindow.confirm_quit] *)

Module QuitGuard.

(** The inner [for row in range(model.rowCount())] loop.  Each of the two
    [break] statements leaves this loop only. *)
Fixpoint scan_rows (rows : Model) (folder_loading folder_syncing : bool)
  : bool * bool :=
  match rows with
  | [] => (folder_loading, folder_syncing)
  | row :: rest =>
      if negb (truthy (status row)) && negb (truthy (mtime row))
      then (true, folder_syncing)                       (* break *)
      else if bool_decide (status row = Some 1%Z)
      then (folder_loading, true)                       (* break *)
      else scan_rows rest folder_loading folder_syncing
  end.

(** The outer [for model in [...]] loop. *)
Fixpoint scan_models (models : list Model)
    (folder_loading folder_syncing : bool) : bool * bool :=
  match models with
  | [] => (folder_loading, folder_syncing)
  | model :: rest =>
      let '(fl, fs) := scan_rows model folder_loading folder_syncing in
      scan_models rest fl fs
  end.

Definition scan (models : list Model) : bool * bool :=
  scan_models models false false.

(** The branch of [if folder_loading: ... elif folder_syncing: ... else:]
    that chooses the icon and the informative text. *)
Inductive Classification := Loading | Syncing | Idle.

Definition branch (flags : bool * bool) : Classification :=
  let '(folder_loading, folder_syncing) := flags in
  if folder_loading then Loading
  else if folder_syncing then Syncing
  else Idle.

Definition classify (models : list Model) : Classification :=
  branch (scan models).

(** The two tests of the loop body, named. *)
Definition is_loading (row : Row) : bool :=
  negb (truthy (status row)) && negb (truthy (mtime row)).

Definition is_syncing (row : Row) : bool :=
  bool_decide (status row = Some 1%Z).

(** A folder with no recorded status and no recorded last-sync time, and
    a folder whose status is 1 (syncing). *)
Definition loading_row : Row := {| status := None; mtime := None |}.

Definition syncing_row : Row := {| status := Some 1%Z; mtime := None |}.

End QuitGuard.

(** ** Gateways, widgets and the window state *)

(** The attributes of a gateway that the window reads.  [gw_id] stands
    for the identity of the Python object: gateways are compared and
    hashed by identity. *)
Record Gateway := {
  gw_id : nat;
  name : string;
  nodedir : string;
  zkap_auth_required : bool;
  zkaps_remaining : option Z;   (* gateway.monitor.zkap_checker.zkaps_remaining *)
  magic_folders : list string
}.

(** [g1 == g2] and [g in gateways]. *)
Definition gateway_eqb (g1 g2 : Gateway) : bool :=
  bool_decide (gw_id g1 = gw_id g2).

Definition gateway_in (g : Gateway) (l : list Gateway) : bool :=
  existsb (gateway_eqb g) l.

(** A widget placed in the stacked widget, named by a handle. *)
Definition Widget := nat.

(** The folder view of a gateway and its model. *)
Record View := { view_gateway : Gateway; model : Model }.

(** A [QToolButton] or [QAction]: the flags the window sets and reads. *)
Record Button := { enabled : bool; checked : bool }.

Definition setEnabled (b : bool) (x : Button) : Button :=
  {| enabled := b; checked := checked x |}.

Definition setChecked (b : bool) (x : Button) : Button :=
  {| enabled := enabled x; checked := b |}.

Definition isChecked (x : Button) : bool := checked x.

(** [CentralWidget(QStackedWidget)] *)
Record CentralWidget := {
  stack : list Widget;              (* the widgets added with addWidget *)
  currentWidget : option Widget;
  views : list View;
  folders_views : gmap nat Widget;  (* keyed by gateway identity *)
  history_views : gmap nat Widget;
  zkap_views : gmap nat Widget
}.

(** [d[key]] where the key is the result of [currentData()]: a missing
    key, [None] included, is a [KeyError], here [None]. *)
Definition dict_getitem (d : gmap nat Widget) (key : option Gateway)
  : option Widget :=
  match key with
  | Some g => d !! gw_id g
  | None => None
  end.

Definition setCurrentWidget (x : Widget) (cw : CentralWidget) : CentralWidget :=
  {| stack := stack cw; currentWidget := Some x; views := views cw;
     folders_views := folders_views cw; history_views := history_views cw;
     zkap_views := zkap_views cw |}.

(** [addWidget]: the first widget added becomes the current one. *)
Definition addWidget (x : Widget) (cw : CentralWidget) : CentralWidget :=
  {| stack := stack cw ++ [x];
     currentWidget := match currentWidget cw with
                      | None => Some x
                      | Some c => Some c
                      end;
     views := views cw;
     folders_views := folders_views cw; history_views := history_views cw;
     zkap_views := zkap_views cw |}.

(** [ComboBox(QComboBox)]: items carry a gateway, or nothing for the
    separator and for the last item, " Add new...". *)
Inductive ComboItem := GatewayItem (g : Gateway) | SeparatorItem | AddNewItem.

Record ComboBox := {
  items : list ComboItem;
  currentIndex : Z;       (* Qt's current index *)
  current_index : Z;      (* the attribute kept by the Python class *)
  cb_enabled : bool
}.

Definition count (cb : ComboBox) : Z := Z.of_nat (List.length (items cb)).

Definition itemData (cb : ComboBox) (index : Z) : option Gateway :=
  if (index <? 0)%Z then None
  else match items cb !! Z.to_nat index with
       | Some (GatewayItem g) => Some g
       | _ => None
       end.

Definition currentData (cb : ComboBox) : option Gateway :=
  itemData cb (currentIndex cb).

Definition cb_setEnabled (b : bool) (cb : ComboBox) : ComboBox :=
  {| items := items cb; currentIndex := currentIndex cb;
     current_index := current_index cb; cb_enabled := b |}.

Definition cb_set_currentIndex (i : Z) (cb : ComboBox) : ComboBox :=
  {| items := items cb; currentIndex := i;
     current_index := current_index cb; cb_enabled := cb_enabled cb |}.

Definition cb_set_current_index (i : Z) (cb : ComboBox) : ComboBox :=
  {| items := items cb; currentIndex := currentIndex cb;
     current_index := i; cb_enabled := cb_enabled cb |}.

(** [insertItem(0, ...)]: the item that was current stays current, so
    its index moves up by one. *)
Definition cb_insertItem0 (g : Gateway) (cb : ComboBox) : ComboBox :=
  {| items := GatewayItem g :: items cb; currentIndex := currentIndex cb + 1;
     current_index := current_index cb; cb_enabled := cb_enabled cb |}.

(** A news message: the tuple [(gateway, title, message)]. *)
Definition Msg : Type := Gateway * string * string.

Definition msg_eqb (m1 m2 : Msg) : bool :=
  let '(g1, t1, b1) := m1 in
  let '(g2, t2, b2) := m2 in
  gateway_eqb g1 g2 && bool_decide (t1 = t2) && bool_decide (b1 = b2).

(** [l.remove(x)]: drops the first element equal to [x]; [None] stands
    for the [ValueError] raised when there is none. *)
Fixpoint list_remove_first (x : Msg) (l : list Msg) : option (list Msg) :=
  match l with
  | [] => None
  | y :: rest =>
      if msg_eqb y x then Some rest
      else match list_remove_first x rest with
           | Some rest' => Some (y :: rest')
           | None => None
           end
  end.

(** The part of [self.gui] the window uses: the unread messages, the
    system tray and the desktop notifications sent by [show_message]. *)
Record Gui := {
  unread_messages : list Msg;
  systray_updates : nat;            (* calls of gui.systray.update() *)
  systray_hidden : bool;
  notifications : list (string * string)
}.

(** What lies outside the window: message boxes shown, zero-delay timers
    waiting for the next tick of the event loop, the Twisted reactor. *)
Record QtApp := {
  msgboxes : list Msg;
  timers : list Msg;
  reactor_running : bool
}.

(** The state of [MainWindow], with its collaborators. *)
Record MainWindow := {
  gui : Gui;
  qt : QtApp;
  gateways : list Gateway;
  welcome_dialog : nat;   (* welcome dialogs opened so far; 0 is None *)
  grid_invites_enabled : bool;
  invites_enabled : bool;
  multiple_grids_enabled : bool;
  windowTitle : string;
  isVisible : bool;
  central_widget : CentralWidget;
  folder_button : Button;
  invites_button : option Button;   (* exists when grid invites are on *)
  invite_action : option Button;   (* exists when only invites are on *)
  combo_box : ComboBox;
  history_button : Button;
  recovery_button : Button;
  folders_button : Button;
  zkaps_button : Button;
  pending_news_message : option Msg   (* None is the empty tuple *)
}.

(** Field updates. *)
Definition upd_gui (f : Gui -> Gui) (w : MainWindow) : MainWindow :=
  {| gui := f (gui w); qt := qt w; gateways := gateways w;
     welcome_dialog := welcome_dialog w;
     grid_invites_enabled := grid_invites_enabled w;
     invites_enabled := invites_enabled w;
     multiple_grids_enabled := multiple_grids_enabled w;
     windowTitle := windowTitle w; isVisible := isVisible w;
     central_widget := central_widget w; folder_button := folder_button w;
     invites_button := invites_button w; invite_action := invite_action w;
     combo_box := combo_box w; history_button := history_button w;
     recovery_button := recovery_button w;
     folders_button := folders_button w; zkaps_button := zkaps_button w;
     pending_news_message := pending_news_message w |}.

Definition upd_qt (f : QtApp -> QtApp) (w : MainWindow) : MainWindow :=
  {| gui := gui w; qt := f (qt w); gateways := gateways w;
     welcome_dialog := welcome_dialog w;
     grid_invites_enabled := grid_invites_enabled w;
     invites_enabled := invites_enabled w;
     multiple_grids_enabled := multiple_grids_enabled w;
     windowTitle := windowTitle w; isVisible := isVisible w;
     central_widget := central_widget w; folder_button := folder_button w;
     invites_button := invites_button w; invite_action := invite_action w;
     combo_box := combo_box w; history_button := history_button w;
     recovery_button := recovery_button w;
     folders_button := folders_button w; zkaps_button := zkaps_button w;
     pending_news_message := pending_news_message w |}.

Definition upd_gateways (f : (list Gateway) -> (list Gateway)) (w : MainWindow) : MainWindow :=
  {| gui := gui w; qt := qt w; gateways := f (gateways w);
     welcome_dialog := welcome_dialog w;
     grid_invites_enabled := grid_invites_enabled w;
     invites_enabled := invites_enabled w;
     multiple_grids_enabled := multiple_grids_enabled w;
     windowTitle := windowTitle w; isVisible := isVisible w;
     central_widget := central_widget w; folder_button := folder_button w;
     invites_button := invites_button w; invite_action := invite_action w;
     combo_box := combo_box w; history_button := history_button w;
     recovery_button := recovery_button w;
     folders_button := folders_button w; zkaps_button := zkaps_button w;
     pending_news_message := pending_news_message w |}.

Definition upd_welcome_dialog (f : nat -> nat) (w : MainWindow) : MainWindow :=
  {| gui := gui w; qt := qt w; gateways := gateways w;
     welcome_dialog := f (welcome_dialog w);
     grid_invites_enabled := grid_invites_enabled w;
     invites_enabled := invites_enabled w;
     multiple_grids_enabled := multiple_grids_enabled w;
     windowTitle := windowTitle w; isVisible := isVisible w;
     central_widget := central_widget w; folder_button := folder_button w;
     invites_button := invites_button w; invite_action := invite_action w;
     combo_box := combo_box w; history_button := history_button w;
     recovery_button := recovery_button w;
     folders_button := folders_button w; zkaps_button := zkaps_button w;
     pending_news_message := pending_news_message w |}.

Definition upd_windowTitle (f : string -> string) (w : MainWindow) : MainWindow :=
  {| gui := gui w; qt := qt w; gateways := gateways w;
     welcome_dialog := welcome_dialog w;
     grid_invites_enabled := grid_invites_enabled w;
     invites_enabled := invites_enabled w;
     multiple_grids_enabled := multiple_grids_enabled w;
     windowTitle := f (windowTitle w); isVisible := isVisible w;
     central_widget := central_widget w; folder_button := folder_button w;
     invites_button := invites_button w; invite_action := invite_action w;
     combo_box := combo_box w; history_button := history_button w;
     recovery_button := recovery_button w;
     folders_button := folders_button w; zkaps_button := zkaps_button w;
     pending_news_message := pending_news_message w |}.

Definition upd_isVisible (f : bool -> bool) (w : MainWindow) : MainWindow :=
  {| gui := gui w; qt := qt w; gateways := gateways w;
     welcome_dialog := welcome_dialog w;
     grid_invites_enabled := grid_invites_enabled w;
     invites_enabled := invites_enabled w;
     multiple_grids_enabled := multiple_grids_enabled w;
     windowTitle := windowTitle w; isVisible := f (isVisible w);
     central_widget := central_widget w; folder_button := folder_button w;
     invites_button := invites_button w; invite_action := invite_action w;
     combo_box := combo_box w; history_button := history_button w;
     recovery_button := recovery_button w;
     folders_button := folders_button w; zkaps_button := zkaps_button w;
     pending_news_message := pending_news_message w |}.

Definition upd_central_widget (f : CentralWidget -> CentralWidget) (w : MainWindow) : MainWindow :=
  {| gui := gui w; qt := qt w; gateways := gateways w;
     welcome_dialog := welcome_dialog w;
     grid_invites_enabled := grid_invites_enabled w;
     invites_enabled := invites_enabled w;
     multiple_grids_enabled := multiple_grids_enabled w;
     windowTitle := windowTitle w; isVisible := isVisible w;
     central_widget := f (central_widget w);
     folder_button := folder_button w; invites_button := invites_button w;
     invite_action := invite_action w; combo_box := combo_box w;
     history_button := history_button w;
     recovery_button := recovery_button w;
     folders_button := folders_button w; zkaps_button := zkaps_button w;
     pending_news_message := pending_news_message w |}.

Definition upd_folder_button (f : Button -> Button) (w : MainWindow) : MainWindow :=
  {| gui := gui w; qt := qt w; gateways := gateways w;
     welcome_dialog := welcome_dialog w;
     grid_invites_enabled := grid_invites_enabled w;
     invites_enabled := invites_enabled w;
     multiple_grids_enabled := multiple_grids_enabled w;
     windowTitle := windowTitle w; isVisible := isVisible w;
     central_widget := central_widget w;
     folder_button := f (folder_button w);
     invites_button := invites_button w; invite_action := invite_action w;
     combo_box := combo_box w; history_button := history_button w;
     recovery_button := recovery_button w;
     folders_button := folders_button w; zkaps_button := zkaps_button w;
     pending_news_message := pending_news_message w |}.

Definition upd_invites_button (f : (option Button) -> (option Button)) (w : MainWindow) : MainWindow :=
  {| gui := gui w; qt := qt w; gateways := gateways w;
     welcome_dialog := welcome_dialog w;
     grid_invites_enabled := grid_invites_enabled w;
     invites_enabled := invites_enabled w;
     multiple_grids_enabled := multiple_grids_enabled w;
     windowTitle := windowTitle w; isVisible := isVisible w;
     central_widget := central_widget w; folder_button := folder_button w;
     invites_button := f (invites_button w);
     invite_action := invite_action w; combo_box := combo_box w;
     history_button := history_button w;
     recovery_button := recovery_button w;
     folders_button := folders_button w; zkaps_button := zkaps_button w;
     pending_news_message := pending_news_message w |}.

Definition upd_invite_action (f : (option Button) -> (option Button)) (w : MainWindow) : MainWindow :=
  {| gui := gui w; qt := qt w; gateways := gateways w;
     welcome_dialog := welcome_dialog w;
     grid_invites_enabled := grid_invites_enabled w;
     invites_enabled := invites_enabled w;
     multiple_grids_enabled := multiple_grids_enabled w;
     windowTitle := windowTitle w; isVisible := isVisible w;
     central_widget := central_widget w; folder_button := folder_button w;
     invites_button := invites_button w;
     invite_action := f (invite_action w); combo_box := combo_box w;
     history_button := history_button w;
     recovery_button := recovery_button w;
     folders_button := folders_button w; zkaps_button := zkaps_button w;
     pending_news_message := pending_news_message w |}.

Definition upd_combo_box (f : ComboBox -> ComboBox) (w : MainWindow) : MainWindow :=
  {| gui := gui w; qt := qt w; gateways := gateways w;
     welcome_dialog := welcome_dialog w;
     grid_invites_enabled := grid_invites_enabled w;
     invites_enabled := invites_enabled w;
     multiple_grids_enabled := multiple_grids_enabled w;
     windowTitle := windowTitle w; isVisible := isVisible w;
     central_widget := central_widget w; folder_button := folder_button w;
     invites_button := invites_button w; invite_action := invite_action w;
     combo_box := f (combo_box w); history_button := history_button w;
     recovery_button := recovery_button w;
     folders_button := folders_button w; zkaps_button := zkaps_button w;
     pending_news_message := pending_news_message w |}.

Definition upd_history_button (f : Button -> Button) (w : MainWindow) : MainWindow :=
  {| gui := gui w; qt := qt w; gateways := gateways w;
     welcome_dialog := welcome_dialog w;
     grid_invites_enabled := grid_invites_enabled w;
     invites_enabled := invites_enabled w;
     multiple_grids_enabled := multiple_grids_enabled w;
     windowTitle := windowTitle w; isVisible := isVisible w;
     central_widget := central_widget w; folder_button := folder_button w;
     invites_button := invites_button w; invite_action := invite_action w;
     combo_box := combo_box w; history_button := f (history_button w);
     recovery_button := recovery_button w;
     folders_button := folders_button w; zkaps_button := zkaps_button w;
     pending_news_message := pending_news_message w |}.

Definition upd_recovery_button (f : Button -> Button) (w : MainWindow) : MainWindow :=
  {| gui := gui w; qt := qt w; gateways := gateways w;
     welcome_dialog := welcome_dialog w;
     grid_invites_enabled := grid_invites_enabled w;
     invites_enabled := invites_enabled w;
     multiple_grids_enabled := multiple_grids_enabled w;
     windowTitle := windowTitle w; isVisible := isVisible w;
     central_widget := central_widget w; folder_button := folder_button w;
     invites_button := invites_button w; invite_action := invite_action w;
     combo_box := combo_box w; history_button := history_button w;
     recovery_button := f (recovery_button w);
     folders_button := folders_button w; zkaps_button := zkaps_button w;
     pending_news_message := pending_news_message w |}.

Definition upd_folders_button (f : Button -> Button) (w : MainWindow) : MainWindow :=
  {| gui := gui w; qt := qt w; gateways := gateways w;
     welcome_dialog := welcome_dialog w;
     grid_invites_enabled := grid_invites_enabled w;
     invites_enabled := invites_enabled w;
     multiple_grids_enabled := multiple_grids_enabled w;
     windowTitle := windowTitle w; isVisible := isVisible w;
     central_widget := central_widget w; folder_button := folder_button w;
     invites_button := invites_button w; invite_action := invite_action w;
     combo_box := combo_box w; history_button := history_button w;
     recovery_button := recovery_button w;
     folders_button := f (folders_button w);
     zkaps_button := zkaps_button w;
     pending_news_message := pending_news_message w |}.

Definition upd_zkaps_button (f : Button -> Button) (w : MainWindow) : MainWindow :=
  {| gui := gui w; qt := qt w; gateways := gateways w;
     welcome_dialog := welcome_dialog w;
     grid_invites_enabled := grid_invites_enabled w;
     invites_enabled := invites_enabled w;
     multiple_grids_enabled := multiple_grids_enabled w;
     windowTitle := windowTitle w; isVisible := isVisible w;
     central_widget := central_widget w; folder_button := folder_button w;
     invites_button := invites_button w; invite_action := invite_action w;
     combo_box := combo_box w; history_button := history_button w;
     recovery_button := recovery_button w;
     folders_button := folders_button w;
     zkaps_button := f (zkaps_button w);
     pending_news_message := pending_news_message w |}.

Definition upd_pending_news_message (f : (option Msg) -> (option Msg)) (w : MainWindow) : MainWindow :=
  {| gui := gui w; qt := qt w; gateways := gateways w;
     welcome_dialog := welcome_dialog w;
     grid_invites_enabled := grid_invites_enabled w;
     invites_enabled := invites_enabled w;
     multiple_grids_enabled := multiple_grids_enabled w;
     windowTitle := windowTitle w; isVisible := isVisible w;
     central_widget := central_widget w; folder_button := folder_button w;
     invites_button := invites_button w; invite_action := invite_action w;
     combo_box := combo_box w; history_button := history_button w;
     recovery_button := recovery_button w;
     folders_button := folders_button w; zkaps_button := zkaps_button w;
     pending_news_message := f (pending_news_message w) |}.

(** ** Effects: state and Python exceptions *)

Inductive exn := AttributeError | KeyError | ValueError.

#[global] Instance exn_eq_dec : EqDecision exn.
Proof. solve_decision. Defined.

(** A call either returns a value or raises; in both cases the window is
    left in the state reached so far. *)
Inductive outcome (A : Type) :=
| Done (a : A) (w : MainWindow)
| Raised (e : exn) (w : MainWindow).

Arguments Done {A} a w.
Arguments Raised {A} e w.

Definition M (A : Type) : Type := MainWindow -> outcome A.

#[global] Instance M_ret : MRet M := fun A a w => Done a w.

#[global] Instance M_bind : MBind M := fun A B k c w =>
  match c w with
  | Done a w' => k a w'
  | Raised e w' => Raised e w'
  end.

Definition raise {A} (e : exn) : M A := fun w => Raised e w.

Definition get : M MainWindow := fun w => Done w w.

Definition modify (f : MainWindow -> MainWindow) : M unit :=
  fun w => Done tt (f w).

(** [try: c except e: h] *)
Definition try_except {A} (c : M A) (e : exn) (h : M A) : M A := fun w =>
  match c w with
  | Done a w' => Done a w'
  | Raised e' w' => if decide (e' = e) then h w' else Raised e' w'
  end.

Definition state_of {A} (o : outcome A) : MainWindow :=
  match o with
  | Done _ w => w
  | Raised _ w => w
  end.

Definition returns {A} (o : outcome A) : bool :=
  match o with
  | Done _ _ => true
  | Raised _ _ => false
  end.

(** The state after running [c] from [w]. *)
Definition exec {A} (c : M A) (w : MainWindow) : MainWindow := state_of (c w).

(** Attribute access on the result of [currentData()]: [None] has none
    of the gateway's attributes. *)
Definition attr_of (o : option Gateway) : M Gateway :=
  match o with
  | Some g => mret g
  | None => raise AttributeError
  end.

(** A method call on [self.invites_button] or [self.invite_action]; the
    attribute may not exist. *)
Definition call_invites_button (f : Button -> Button) : M unit := fun w =>
  match invites_button w with
  | Some b => Done tt (upd_invites_button (fun _ => Some (f b)) w)
  | None => Raised AttributeError w
  end.

Definition call_invite_action (f : Button -> Button) : M unit := fun w =>
  match invite_action w with
  | Some b => Done tt (upd_invite_action (fun _ => Some (f b)) w)
  | None => Raised AttributeError w
  end.

Definition systray_update (g : Gui) : Gui :=
  {| unread_messages := unread_messages g;
     systray_updates := S (systray_updates g);
     systray_hidden := systray_hidden g;
     notifications := notifications g |}.

Definition systray_hide (g : Gui) : Gui :=
  {| unread_messages := unread_messages g;
     systray_updates := systray_updates g;
     systray_hidden := true;
     notifications := notifications g |}.

Definition set_unread_messages (l : list Msg) (g : Gui) : Gui :=
  {| unread_messages := l;
     systray_updates := systray_updates g;
     systray_hidden := systray_hidden g;
     notifications := notifications g |}.

Definition gui_show_message (title body : string) (g : Gui) : Gui :=
  {| unread_messages := unread_messages g;
     systray_updates := systray_updates g;
     systray_hidden := systray_hidden g;
     notifications := notifications g ++ [(title, body)] |}.

Definition msgbox_show (m : Msg) (q : QtApp) : QtApp :=
  {| msgboxes := msgboxes q ++ [m]; timers := timers q;
     reactor_running := reactor_running q |}.

(** [QTimer.singleShot(0, lambda: self.show_news_message(...))] *)
Definition singleShot (m : Msg) (q : QtApp) : QtApp :=
  {| msgboxes := msgboxes q; timers := timers q ++ [m];
     reactor_running := reactor_running q |}.

Definition set_timers (l : list Msg) (q : QtApp) : QtApp :=
  {| msgboxes := msgboxes q; timers := l;
     reactor_running := reactor_running q |}.

Definition reactor_stop (q : QtApp) : QtApp :=
  {| msgboxes := msgboxes q; timers := timers q; reactor_running := false |}.

(** ** [MainWindow.maybe_enable_actions] *)

Definition maybe_enable_actions : M unit :=
  w ← get;
  gateway ← attr_of (currentData (combo_box w));
  if zkap_auth_required gateway && negb (truthy (zkaps_remaining gateway))
  then
    modify (upd_folder_button (setEnabled false));;
    modify (upd_combo_box (cb_setEnabled false));;
    modify (upd_history_button (setEnabled false));;
    modify (upd_recovery_button (setEnabled false));;
    modify (upd_folders_button (setEnabled false));;
    modify (upd_zkaps_button (setEnabled false));;
    (if grid_invites_enabled w
     then call_invites_button (setEnabled false)
     else try_except (call_invite_action (setEnabled false))
                     AttributeError (mret tt));;
    if negb (truthy (magic_folders gateway))
    then
      w' ← get;
      match dict_getitem (zkap_views (central_widget w'))
                         (currentData (combo_box w')) with
      | None => mret tt                                (* except KeyError: return *)
      | Some widget =>
          modify (upd_central_widget (setCurrentWidget widget));;
          modify (upd_zkaps_button (setChecked true));;
          modify (upd_history_button (setChecked false));;
          modify (upd_folders_button (setChecked false))
      end
    else mret tt
  else
    modify (upd_folder_button (setEnabled true));;
    modify (upd_combo_box (cb_setEnabled true));;
    modify (upd_history_button (setEnabled true));;
    modify (upd_recovery_button (setEnabled true));;
    modify (upd_folders_button (setEnabled true));;
    modify (upd_zkaps_button (setEnabled true));;
    (if grid_invites_enabled w
     then call_invites_button (setEnabled true)
     else try_except (call_invite_action (setEnabled true))
                     AttributeError (mret tt)).

(** ** News messages *)

(** [MainWindow.show_news_message]: the message box is shown, then the
    tuple is removed from the unread messages. *)
Definition show_news_message (m : Msg) : M unit :=
  modify (upd_qt (msgbox_show m));;
  w ← get;
  match list_remove_first m (unread_messages (gui w)) with
  | None => mret tt                                    (* except ValueError: return *)
  | Some rest =>
      modify (upd_gui (set_unread_messages rest));;
      modify (upd_gui systray_update)
  end.

(** [MainWindow._maybe_show_news_message] *)
Definition _maybe_show_news_message (m : Msg) : M unit :=
  modify (upd_gui (fun g => set_unread_messages (unread_messages g ++ [m]) g));;
  modify (upd_gui systray_update);;
  w ← get;
  if isVisible w
  then show_news_message m
  else modify (upd_pending_news_message (fun _ => Some m)).

(** [MainWindow.showEvent] *)
Definition showEvent : M unit :=
  w ← get;
  match pending_news_message w with
  | Some m =>
      modify (upd_pending_news_message (fun _ => None));;
      modify (upd_qt (singleShot m))
  | None => mret tt
  end.

(** The next tick of the event loop runs the oldest zero-delay timer. *)
Definition next_tick : M unit :=
  w ← get;
  match timers (qt w) with
  | [] => mret tt
  | m :: rest => modify (upd_qt (set_timers rest));; show_news_message m
  end.

(** The window becomes visible, or is hidden. *)
Definition show : M unit :=
  modify (upd_isVisible (fun _ => true));; showEvent.

Definition hide : M unit := modify (upd_isVisible (fun _ => false)).

(** ** Views *)

(** [MainWindow.current_view]: [None] when the current gateway has no
    folders view. *)
Definition current_view (w : MainWindow) : option Widget :=
  dict_getitem (folders_views (central_widget w)) (currentData (combo_box w)).

(** [MainWindow.set_current_grid_status] *)
Definition set_current_grid_status : M unit :=
  w ← get;
  match current_view w with
  | None => mret tt
  | Some _ =>
      modify (upd_gui systray_update);;
      maybe_enable_actions
  end.

(** [MainWindow.show_folders_view] *)
Definition show_folders_view : M unit :=
  w ← get;
  match dict_getitem (folders_views (central_widget w))
                     (currentData (combo_box w)) with
  | None => mret tt                                    (* except KeyError: return *)
  | Some widget =>
      modify (upd_central_widget (setCurrentWidget widget));;
      modify (upd_folders_button (setChecked true));;
      modify (upd_zkaps_button (setChecked false));;
      modify (upd_history_button (setChecked false));;
      set_current_grid_status
  end.

(** [MainWindow.show_history_view] *)
Definition show_history_view : M unit :=
  w ← get;
  match dict_getitem (history_views (central_widget w))
                     (currentData (combo_box w)) with
  | None => mret tt                                    (* except KeyError: return *)
  | Some widget =>
      modify (upd_central_widget (setCurrentWidget widget));;
      modify (upd_folders_button (setChecked false));;
      modify (upd_zkaps_button (setChecked false));;
      modify (upd_history_button (setChecked true));;
      set_current_grid_status
  end.

(** [MainWindow.show_zkap_view] *)
Definition show_zkap_view : M unit :=
  w ← get;
  match dict_getitem (zkap_views (central_widget w))
                     (currentData (combo_box w)) with
  | None => mret tt                                    (* except KeyError: return *)
  | Some widget =>
      modify (upd_central_widget (setCurrentWidget widget));;
      modify (upd_folders_button (setChecked false));;
      modify (upd_zkaps_button (setChecked true));;
      modify (upd_history_button (setChecked false));;
      set_current_grid_status
  end.

(** The three kinds of panel and the operation that shows each. *)
Inductive ViewKind := Folders | History | Quota.

#[global] Instance ViewKind_eq_dec : EqDecision ViewKind.
Proof. solve_decision. Defined.

Definition show_view (k : ViewKind) : M unit :=
  match k with
  | Folders => show_folders_view
  | History => show_history_view
  | Quota => show_zkap_view
  end.

(** The dictionary of the central widget that holds the panels of a kind,
    and the toolbar button of that kind. *)
Definition views_of (k : ViewKind) (cw : CentralWidget) : gmap nat Widget :=
  match k with
  | Folders => folders_views cw
  | History => history_views cw
  | Quota => zkap_views cw
  end.

Definition button_of (k : ViewKind) (w : MainWindow) : Button :=
  match k with
  | Folders => folders_button w
  | History => history_button w
  | Quota => zkaps_button w
  end.

(** [MainWindow.show_welcome_dialog] *)
Definition show_welcome_dialog : M unit :=
  modify (upd_welcome_dialog S).

(** ** Feature flags read by [MainWindow.__init__] *)

(** [value and value.lower() == "false"], for the result of [dict.get]. *)
Definition flag_is_false (value : option string) : bool :=
  match value with
  | Some s => truthy s && bool_decide (lower s = "false")
  | None => false
  end.

(** The three flags, in the order [grid_invites_enabled],
    [invites_enabled], [multiple_grids_enabled]. *)
Definition init_features (settings : gmap string (gmap string string))
  : bool * bool * bool :=
  let features_settings := settings !! "features" in
  match features_settings with
  | Some features =>
      if truthy features then
        (if flag_is_false (features !! "grid_invites") then false else true,
         if flag_is_false (features !! "invites") then false else true,
         if flag_is_false (features !! "multiple_grids") then false else true)
      else (true, true, true)
  | None => (true, true, true)
  end.

(** ** [CentralWidget] *)

Definition CentralWidget_init : CentralWidget :=
  {| stack := []; currentWidget := None; views := [];
     folders_views := ∅; history_views := ∅; zkap_views := ∅ |}.

(** A widget created now is named by the number of widgets created
    before it. *)
Definition fresh_widget (cw : CentralWidget) : Widget := List.length (stack cw).

Definition add_folders_view (gateway : Gateway) (cw : CentralWidget)
  : CentralWidget :=
  let widget := fresh_widget cw in
  let cw := addWidget widget cw in
  {| stack := stack cw; currentWidget := currentWidget cw;
     views := views cw ++ [{| view_gateway := gateway; model := [] |}];
     folders_views := <[gw_id gateway := widget]> (folders_views cw);
     history_views := history_views cw; zkap_views := zkap_views cw |}.

Definition add_history_view (gateway : Gateway) (cw : CentralWidget)
  : CentralWidget :=
  let view := fresh_widget cw in
  let cw := addWidget view cw in
  {| stack := stack cw; currentWidget := currentWidget cw; views := views cw;
     folders_views := folders_views cw;
     history_views := <[gw_id gateway := view]> (history_views cw);
     zkap_views := zkap_views cw |}.

Definition add_zkap_view (gateway : Gateway) (cw : CentralWidget)
  : CentralWidget :=
  let widget := fresh_widget cw in
  let cw := addWidget widget cw in
  {| stack := stack cw; currentWidget := currentWidget cw; views := views cw;
     folders_views := folders_views cw; history_views := history_views cw;
     zkap_views := <[gw_id gateway := widget]> (zkap_views cw) |}.

(** [ComboBox.__init__]: a separator, then " Add new...". *)
Definition ComboBox_init : ComboBox :=
  {| items := [SeparatorItem; AddNewItem]; currentIndex := 0;
     current_index := 0; cb_enabled := true |}.

Section Application.

(** [gridsync.APP_NAME] and [sys.platform]. *)
Context (APP_NAME : string) (platform : string).

(** [MainWindow.__init__], for the attributes modelled here. *)
Definition init (settings : gmap string (gmap string string))
    (gui0 : Gui) (qt0 : QtApp) : MainWindow :=
  let '(grid_invites, invites, multiple_grids) := init_features settings in
  {| gui := gui0; qt := qt0; gateways := []; welcome_dialog := 0;
     grid_invites_enabled := grid_invites;
     invites_enabled := invites;
     multiple_grids_enabled := multiple_grids;
     windowTitle := APP_NAME;
     isVisible := false;
     central_widget := CentralWidget_init;
     folder_button := {| enabled := false; checked := false |};
     invites_button :=
       if grid_invites then Some {| enabled := true; checked := false |}
       else None;
     invite_action :=
       if grid_invites then None
       else if invites then Some {| enabled := true; checked := false |}
       else None;
     combo_box := ComboBox_init;
     history_button := {| enabled := false; checked := false |};
     recovery_button := {| enabled := true; checked := false |};
     folders_button := {| enabled := false; checked := false |};
     zkaps_button := {| enabled := false; checked := false |};
     pending_news_message := None |}.

(** [MainWindow.on_grid_selected], the slot of the combo box's
    [currentIndexChanged] signal. *)
Definition on_grid_selected (index : Z) : M unit :=
  w ← get;
  (if bool_decide (index = count (combo_box w) - 1)%Z
   then show_welcome_dialog else mret tt);;
  w ← get;
  if negb (bool_decide (is_Some (currentData (combo_box w))))
  then mret tt                                          (* return *)
  else
    (if isChecked (history_button w)
     then show_history_view else show_folders_view);;
    w ← get;
    if multiple_grids_enabled w
    then
      gateway ← attr_of (currentData (combo_box w));
      modify (upd_windowTitle (fun _ => APP_NAME ++ " - " ++ name gateway))
    else mret tt.

(** [QComboBox.setCurrentIndex]: when the index changes, the signal
    [currentIndexChanged] reaches [on_grid_selected]. *)
Definition setCurrentIndex (index : Z) : M unit :=
  w ← get;
  if bool_decide (index = currentIndex (combo_box w))
  then mret tt
  else
    modify (upd_combo_box (cb_set_currentIndex index));;
    on_grid_selected index.

(** [ComboBox.on_activated], the slot of the [activated] signal. *)
Definition on_activated (index : Z) : M unit :=
  w ← get;
  (if bool_decide (index = count (combo_box w) - 1)%Z
   then setCurrentIndex (current_index (combo_box w))
   else modify (upd_combo_box (cb_set_current_index index)));;
  w ← get;
  _ ← attr_of (currentData (combo_box w));             (* gateway.name *)
  maybe_enable_actions.

(** The user picks an item of the combo box: Qt makes it current, then
    emits [activated]. *)
Definition activate (index : Z) : M unit :=
  setCurrentIndex index;; on_activated index.

(** [ComboBox.add_gateway].  Inserting at position 0 moves the current
    index, of which Qt notifies [currentIndexChanged]. *)
Definition add_gateway (gateway : Gateway) : M unit :=
  modify (upd_combo_box (cb_insertItem0 gateway));;
  w ← get;
  on_grid_selected (currentIndex (combo_box w));;
  setCurrentIndex 0;;
  modify (upd_combo_box (cb_set_current_index 0)).

(** [MainWindow.populate] *)
Fixpoint populate_each (gateways_ : list Gateway) : M unit :=
  match gateways_ with
  | [] => mret tt
  | gateway :: rest =>
      w ← get;
      (if negb (gateway_in gateway (gateways w))
       then
         modify (upd_central_widget (add_folders_view gateway));;
         modify (upd_central_widget (add_history_view gateway));;
         modify (upd_central_widget (add_zkap_view gateway));;
         add_gateway gateway;;
         modify (upd_gateways (fun l => (l ++ [gateway])%list))
       else mret tt);;
      populate_each rest
  end.

Definition populate (gateways_ : list Gateway) : M unit :=
  populate_each gateways_;;
  if truthy gateways_ then maybe_enable_actions else mret tt.

(** [MainWindow.on_message_received].  [plain] stands for
    [strip_html_tags(message.replace("<p>", "\n\n"))], of
    [gridsync.util]. *)
Definition on_message_received (plain : string -> string)
    (gateway : Gateway) (message : string) : M unit :=
  let title := "New message from " ++ name gateway in
  modify (upd_gui (gui_show_message title (plain message)));;
  _maybe_show_news_message (gateway, title, message).

(** [MainWindow.on_upgrade_required] *)
Definition on_upgrade_required (gateway : Gateway) : M unit :=
  let title := "Upgrade required" in
  let message :=
    "A message was received from " ++ name gateway ++
    " in an unsupported format. This suggests that you are running an " ++
    "out-of-date version of " ++ APP_NAME ++ "." ++
    String (ascii_of_nat 10) (String (ascii_of_nat 10)
      "To avoid seeing this warning, please upgrade to the latest version.")
  in
  _maybe_show_news_message (gateway, title, message).

(** [MainWindow.confirm_quit]: the message box it builds. *)
Inductive Icon := Warning | Question.

Record QuitBox := {
  icon : Icon;
  box_title : option string;
  box_text : string;
  informativeText : option string
}.

Definition quit_box (folder_loading folder_syncing : bool) : QuitBox :=
  let '(icon_, informative_text) :=
    if folder_loading then
      (Warning,
       "One or more folders have not finished loading. If these " ++
       "folders were recently added, you may need to add them again.")
    else if folder_syncing then
      (Warning,
       "One or more folders are currently syncing. If you quit, any " ++
       "pending upload or download operations will be cancelled " ++
       "until you launch " ++ APP_NAME ++ " again.")
    else
      (Question,
       "If you quit, " ++ APP_NAME ++ " will stop synchronizing your " ++
       "folders until you launch it again.")
  in
  if bool_decide (platform = "darwin") then
    {| icon := icon_; box_title := None;
       box_text := "Are you sure you wish to quit?";
       informativeText := Some informative_text |}
  else
    {| icon := icon_; box_title := Some ("Exit " ++ APP_NAME ++ "?");
       box_text := "Are you sure you wish to quit? " ++ informative_text;
       informativeText := None |}.

(** [answer_yes] is the button the user presses in the box. *)
Definition confirm_quit (answer_yes : bool) : M QuitBox :=
  w ← get;
  let '(folder_loading, folder_syncing) :=
    QuitGuard.scan (map model (views (central_widget w))) in
  (if answer_yes then
     (if bool_decide (platform = "win32")
      then modify (upd_gui systray_hide) else mret tt);;
     modify (upd_qt reactor_stop)
   else mret tt);;
  mret (quit_box folder_loading folder_syncing).

End Application.

(** ** [gridsync/preferences.py] *)

Module Prefs.

(** The content of an ini file: section, then option, then value; and
    the files on disk, by path. *)
Abbreviation Ini := (gmap string (gmap string string)).
Abbreviation Files := (gmap string (gmap string (gmap string string))).

Inductive error := NotFound.

Inductive result := Ok (value : string) | Fail (e : error).

(** Modelled from the spec: [gridsync.config.Config], which
    [preferences.py] imports and whose source is not part of the files
    under study.  [get] fails with [NotFound] when the pair of section
    and option is not in the file; [set] loads the file, creates the
    section when it is absent, writes the option and stores the file
    again before it returns. *)
Record Config := { filename : string }.

Definition Config_get (config : Config) (section opt : string)
    (files : Files) : result :=
  match files !! filename config with
  | Some ini =>
      match ini !! section with
      | Some options =>
          match options !! opt with
          | Some value => Ok value
          | None => Fail NotFound
          end
      | None => Fail NotFound
      end
  | None => Fail NotFound
  end.

Definition Config_set (config : Config) (section opt value : string)
    (files : Files) : Files :=
  let ini := default ∅ (files !! filename config) in
  let options := default ∅ (ini !! section) in
  <[filename config := <[section := <[opt := value]> options]> ini]> files.

(** [os.path.join] of a directory and a relative file name (POSIX). *)
Definition ends_with_slash (s : string) : bool :=
  match String.get (String.length s - 1) s with
  | Some c => bool_decide (c = "/"%char)
  | None => false
  end.

Definition os_path_join (a b : string) : string :=
  if negb (truthy a) || ends_with_slash a then a ++ b else a ++ "/" ++ b.

Section WithConfigDir.

(** [gridsync.config_dir] *)
Context (config_dir : string).

(** [if not config_file: config_file = os.path.join(...)] *)
Definition resolve (config_file : option string) : string :=
  match config_file with
  | Some path =>
      if truthy path then path
      else os_path_join config_dir "preferences.ini"
  | None => os_path_join config_dir "preferences.ini"
  end.

Definition set_preference (section opt value : string)
    (config_file : option string) (files : Files) : Files :=
  let config_file := resolve config_file in
  let config := {| filename := config_file |} in
  Config_set config section opt value files.

Definition get_preference (section opt : string)
    (config_file : option string) (files : Files) : result :=
  let config_file := resolve config_file in
  let config := {| filename := config_file |} in
  Config_get config section opt files.

(** The class [Preferences]; [config_file] is [self.config_file.path]. *)
Record Preferences := { config_file : string }.

Definition _default_config_path : string :=
  os_path_join config_dir "preferences.ini".

Definition Preferences_default : Preferences :=
  {| config_file := _default_config_path |}.

Definition Preferences_set (self : Preferences)
    (section opt value : string) (files : Files) : Files :=
  set_preference section opt value (Some (config_file self)) files.

Definition Preferences_get (self : Preferences)
    (section opt : string) (files : Files) : result :=
  get_preference section opt (Some (config_file self)) files.

(** A run of [set] calls, oldest first. *)
Fixpoint set_all (self : Preferences)
    (writes : list (string * string * string)) (files : Files) : Files :=
  match writes with
  | [] => files
  | (section, opt, value) :: rest =>
      set_all self rest (Preferences_set self section opt value files)
  end.

End WithConfigDir.

End Prefs.

(** ** Vocabulary of the statements *)

(** The invite controls are built by [__init__] from the feature flags:
    the invites button exists exactly when grid invites are on, and the
    plain invite action only when they are off. *)
Definition controls_built (w : MainWindow) : Prop :=
  if grid_invites_enabled w
  then is_Some (invites_button w) ∧ invite_action w = None
  else invites_button w = None.

(** Every control of the toolbar that exists has its enabled flag equal
    to [b]. *)
Definition all_controls (b : bool) (w : MainWindow) : Prop :=
  enabled (folder_button w) = b ∧
  cb_enabled (combo_box w) = b ∧
  enabled (history_button w) = b ∧
  enabled (recovery_button w) = b ∧
  enabled (folders_button w) = b ∧
  enabled (zkaps_button w) = b ∧
  (∀ x, invites_button w = Some x → enabled x = b) ∧
  (∀ x, invite_action w = Some x → enabled x = b).

(** The gateway requires ZKAPs and has none left. *)
Definition quota_exhausted (g : Gateway) : bool :=
  zkap_auth_required g && negb (truthy (zkaps_remaining g)).

(** Of the three panel buttons, the one of kind [k] is checked and the
    other two are not. *)
Definition only_checked (k : ViewKind) (w : MainWindow) : Prop :=
  ∀ k', checked (button_of k' w) = bool_decide (k' = k).

(** The checked state of the three panel buttons and the current widget
    are the same in both windows. *)
Definition same_view (w w' : MainWindow) : Prop :=
  currentWidget (central_widget w') = currentWidget (central_widget w) ∧
  ∀ k, checked (button_of k w') = checked (button_of k w).

(** What no operation on views or enablement changes: the feature
    flags, the registered panels, the items of the combo box, the
    existence of the invite controls, the gateways and the news state. *)
Record same_frame (w w' : MainWindow) : Prop := {
  frame_grid_invites : grid_invites_enabled w' = grid_invites_enabled w;
  frame_invites : invites_enabled w' = invites_enabled w;
  frame_multiple_grids : multiple_grids_enabled w' = multiple_grids_enabled w;
  frame_folders_views :
    folders_views (central_widget w') = folders_views (central_widget w);
  frame_history_views :
    history_views (central_widget w') = history_views (central_widget w);
  frame_zkap_views :
    zkap_views (central_widget w') = zkap_views (central_widget w);
  frame_views : views (central_widget w') = views (central_widget w);
  frame_items : items (combo_box w') = items (combo_box w);
  frame_invites_button :
    is_Some (invites_button w') ↔ is_Some (invites_button w);
  frame_invite_action :
    invite_action w' = None ↔ invite_action w = None;
  frame_gateways : gateways w' = gateways w;
  frame_unread :
    unread_messages (gui w') = unread_messages (gui w);
  frame_pending : pending_news_message w' = pending_news_message w;
  frame_qt : qt w' = qt w;
  frame_isVisible : isVisible w' = isVisible w
}.

(** The selected item of the combo box, the title and the welcome
    dialogs are the same in both windows. *)
Record same_selection (w w' : MainWindow) : Prop := {
  sel_currentIndex : currentIndex (combo_box w') = currentIndex (combo_box w);
  sel_current_index : current_index (combo_box w') = current_index (combo_box w);
  sel_windowTitle : windowTitle w' = windowTitle w;
  sel_welcome_dialog : welcome_dialog w' = welcome_dialog w
}.

(** The gateway requires ZKAPs, has none left and has no folders: the
    case in which [maybe_enable_actions] puts the quota panel in front. *)
Definition shows_quota_first (g : Gateway) : bool :=
  quota_exhausted g && negb (truthy (magic_folders g)).

(** The quota panel that [maybe_enable_actions] puts in front, if any. *)
Definition forced_quota_view (w : MainWindow) : option Widget :=
  match currentData (combo_box w) with
  | Some g =>
      if shows_quota_first g
      then zkap_views (central_widget w) !! gw_id g
      else None
  | None => None
  end.

(** The same, for the three [show_*_view] methods: they reach
    [maybe_enable_actions] through [set_current_grid_status], which
    returns early when the current gateway has no folders view. *)
Definition forced_on_show (w : MainWindow) : option Widget :=
  match current_view w with
  | Some _ => forced_quota_view w
  | None => None
  end.

(** The view [on_grid_selected] asks for: it reads the History button,
    which all gateways share. *)
Definition restored_kind (w : MainWindow) : ViewKind :=
  if isChecked (history_button w) then History else Folders.

Definition restored (k : ViewKind) : ViewKind :=
  match k with
  | History => History
  | Folders | Quota => Folders
  end.

(** The title after [on_grid_selected] for the gateway [g]. *)
Definition title_for (APP_NAME : string) (w : MainWindow) (g : Gateway)
  : string :=
  if multiple_grids_enabled w then APP_NAME ++ " - " ++ name g
  else windowTitle w.

(** The settings hold, for the feature [key], a non-empty value whose
    lower-case form is "false". *)
Definition stored_false (settings : gmap string (gmap string string))
    (key : string) : Prop :=
  ∃ features value,
    settings !! "features" = Some features ∧
    features !! key = Some value ∧
    value ≠ "" ∧ lower value = "false".

(** The test made for one feature, section and option looked up. *)
Definition feature_off (settings : gmap string (gmap string string))
    (key : string) : bool :=
  match settings !! "features" with
  | Some features =>
      if truthy features then flag_is_false (features !! key) else false
  | None => false
  end.

(** A row of a folder model that stops neither test of the quit scan,
    and a model whose first row to stop the scan is a loading one. *)
Definition undecided (row : Row) : Prop :=
  QuitGuard.is_loading row = false ∧ QuitGuard.is_syncing row = false.

Definition loading_decides (model : Model) : Prop :=
  ∃ (pre : list Row) row post,
    model = (pre ++ row :: post)%list ∧
    Forall undecided pre ∧ QuitGuard.is_loading row = true.

(** The gateway objects belong to the rest of the application, which
    changes their attributes.  [gateway_changed g w] is the window once
    the gateway with the identity of [g] has the attributes of [g]. *)
Definition refresh (g g0 : Gateway) : Gateway :=
  if gateway_eqb g0 g then g else g0.

Definition refresh_item (g : Gateway) (item : ComboItem) : ComboItem :=
  match item with
  | GatewayItem g0 => GatewayItem (refresh g g0)
  | SeparatorItem => SeparatorItem
  | AddNewItem => AddNewItem
  end.

Definition gateway_changed (g : Gateway) (w : MainWindow) : MainWindow :=
  upd_combo_box
    (fun cb => {| items := map (refresh_item g) (items cb);
                  currentIndex := currentIndex cb;
                  current_index := current_index cb;
                  cb_enabled := cb_enabled cb |})
    (upd_gateways (map (refresh g)) w).

(** The views of the central widget are replaced by [vs]: the folder
    models are filled by the monitor of each gateway. *)
Definition with_views (vs : list View) (w : MainWindow) : MainWindow :=
  upd_central_widget
    (fun cw => {| stack := stack cw; currentWidget := currentWidget cw;
                  views := vs;
                  folders_views := folders_views cw;
                  history_views := history_views cw;
                  zkap_views := zkap_views cw |}) w.

(** Several messages arrive, oldest first. *)
Fixpoint enqueue_all (ms : list Msg) : M unit :=
  match ms with
  | [] => mret tt
  | m :: rest => _maybe_show_news_message m;; enqueue_all rest
  end.

(** ** Sample gateways and windows *)

Module Sample.

Definition APP_NAME : string := "Gridsync".

Definition gui0 : Gui :=
  {| unread_messages := []; systray_updates := 0; systray_hidden := false;
     notifications := [] |}.

Definition qt0 : QtApp :=
  {| msgboxes := []; timers := []; reactor_running := true |}.

(** A gateway that does not require ZKAPs. *)
Definition gA : Gateway :=
  {| gw_id := 1; name := "A"; nodedir := "/grids/A";
     zkap_auth_required := false; zkaps_remaining := Some 0%Z;
     magic_folders := [] |}.

(** A gateway that requires ZKAPs, has none and has no folders. *)
Definition gB : Gateway :=
  {| gw_id := 2; name := "B"; nodedir := "/grids/B";
     zkap_auth_required := true; zkaps_remaining := Some 0%Z;
     magic_folders := [] |}.

(** A second gateway that does not require ZKAPs. *)
Definition gC : Gateway :=
  {| gw_id := 3; name := "C"; nodedir := "/grids/C";
     zkap_auth_required := false; zkaps_remaining := None;
     magic_folders := ["Documents"] |}.

(** A gateway with ZKAPs left, and the same gateway once they are spent. *)
Definition gP : Gateway :=
  {| gw_id := 4; name := "P"; nodedir := "/grids/P";
     zkap_auth_required := true; zkaps_remaining := Some 10%Z;
     magic_folders := [] |}.

Definition gP_spent : Gateway :=
  {| gw_id := 4; name := "P"; nodedir := "/grids/P";
     zkap_auth_required := true; zkaps_remaining := Some 0%Z;
     magic_folders := [] |}.

(** A gateway that has run out of ZKAPs but has a folder. *)
Definition gD : Gateway :=
  {| gw_id := 5; name := "D"; nodedir := "/grids/D";
     zkap_auth_required := true; zkaps_remaining := Some 0%Z;
     magic_folders := ["Photos"] |}.

(** The window as built with no feature settings, and with several
    grids switched off. *)
Definition w0 : MainWindow := init APP_NAME ∅ gui0 qt0.

Definition single_grid : gmap string (gmap string string) :=
  {[ "features" := {[ "multiple_grids" := "false" ]} ]}.

Definition w0_single : MainWindow := init APP_NAME single_grid gui0 qt0.

(** Windows populated with gateways.  The combo box lists the gateway
    added last first, and selects it. *)
Definition wA : MainWindow := exec (populate APP_NAME [gA]) w0.

Definition wB : MainWindow := exec (populate APP_NAME [gB]) w0.

Definition wD : MainWindow := exec (populate APP_NAME [gD]) w0.

Definition wAC : MainWindow := exec (populate APP_NAME [gA; gC]) w0.

Definition wAC_single : MainWindow :=
  exec (populate APP_NAME [gA; gC]) w0_single.

Definition wP : MainWindow := exec (populate APP_NAME [gP]) w0.

Definition wP_spent : MainWindow := gateway_changed gP_spent wP.

(** A window whose only gateway has a syncing folder listed before a
    folder that has not finished loading. *)
Definition wQuit : MainWindow :=
  with_views
    [{| view_gateway := gA;
        model := [QuitGuard.syncing_row; QuitGuard.loading_row] |}] wA.

Definition m1 : Msg := (gA, "New message from A", "first").

Definition m2 : Msg := (gA, "New message from A", "second").

End Sample.

(** ** More of the window *)

(** [MainWindow.closeEvent].  [tray_available] is the answer of
    [self.gui.systray.isSystemTrayAvailable()]; the result tells whether
    the event was accepted ([event.accept()]) or ignored. *)
Definition closeEvent (APP_NAME platform : string)
    (tray_available answer_yes : bool) : M bool :=
  if tray_available
  then mret true
  else confirm_quit APP_NAME platform answer_yes;; mret false.

(** The invite dialogs kept alive by the window, named by a handle. *)
Definition Dialog := nat.

(** [l.remove(obj)] on a list of dialogs; [None] is the [ValueError]. *)
Fixpoint remove_dialog (obj : Dialog) (l : list Dialog)
  : option (list Dialog) :=
  match l with
  | [] => None
  | d :: rest =>
      if bool_decide (d = obj) then Some rest
      else match remove_dialog obj rest with
           | Some rest' => Some (d :: rest')
           | None => None
           end
  end.

(** [MainWindow.open_invite_receiver] and [MainWindow.on_invite_closed],
    on [self.active_invite_receiver_dialogs]. *)
Definition open_invite_receiver (dialog : Dialog)
    (active_invite_receiver_dialogs : list Dialog) : list Dialog :=
  (active_invite_receiver_dialogs ++ [dialog])%list.

Definition on_invite_closed (obj : Dialog)
    (active_invite_receiver_dialogs : list Dialog) : list Dialog :=
  match remove_dialog obj active_invite_receiver_dialogs with
  | Some rest => rest
  | None => active_invite_receiver_dialogs          (* except ValueError: pass *)
  end.

(** ** Vocabulary of the further statements *)

(** [c] takes every window to one related to it by [R], whether it
    returns or raises. *)
Definition keeps {A} (R : MainWindow → MainWindow → Prop) (c : M A) : Prop :=
  ∀ w, R w (state_of (c w)).

(** From a window that satisfies [P], [c] returns, with a value and a
    window that satisfy [Q]. *)
Definition hoare {A} (P : MainWindow → Prop) (c : M A)
    (Q : A → MainWindow → Prop) : Prop :=
  ∀ w, P w →
    match c w with
    | Done a w' => Q a w'
    | Raised _ _ => False
    end.

(** The frame, and the widgets of the stacked widget. *)
Definition same_registry (w w' : MainWindow) : Prop :=
  same_frame w w' ∧ stack (central_widget w') = stack (central_widget w).

(** The model's first row to stop the quit scan is a syncing one. *)
Definition syncing_decides (model : Model) : Prop :=
  ∃ (pre : list Row) row post,
    model = (pre ++ row :: post)%list ∧
    Forall undecided pre ∧
    QuitGuard.is_loading row = false ∧ QuitGuard.is_syncing row = true.

(** The gateway added as number [i] has the widgets [3 i], [3 i + 1] and
    [3 i + 2] as its folders, history and quota panels. *)
Definition registered (w : MainWindow) (i : nat) (g : Gateway) : Prop :=
  folders_views (central_widget w) !! gw_id g = Some (3 * i) ∧
  history_views (central_widget w) !! gw_id g = Some (3 * i + 1) ∧
  zkap_views (central_widget w) !! gw_id g = Some (3 * i + 2).

(** The shape [populate] gives to the window, starting from [__init__]. *)
Record registry_wf (w : MainWindow) : Prop := {
  wf_nodup : NoDup (map gw_id (gateways w));
  wf_items :
    items (combo_box w) =
      (map GatewayItem (rev (gateways w)) ++ [SeparatorItem; AddNewItem])%list;
  wf_stack :
    stack (central_widget w) = seq 0 (3 * List.length (gateways w));
  wf_registered : ∀ i g, gateways w !! i = Some g → registered w i g;
  wf_unregistered : ∀ id, id ∉ map gw_id (gateways w) →
    folders_views (central_widget w) !! id = None ∧
    history_views (central_widget w) !! id = None ∧
    zkap_views (central_widget w) !! id = None;
  wf_views : map view_gateway (views (central_widget w)) = gateways w;
  wf_current : gateways w ≠ [] → is_Some (currentData (combo_box w))
}.

(** The gateways of [gs] that [populate] adds to the known ones: those
    not known yet, each once, in the order of [gs]. *)
Fixpoint fresh_gateways (known gs : list Gateway) : list Gateway :=
  match gs with
  | [] => []
  | g :: rest =>
      if gateway_in g known then fresh_gateways known rest
      else g :: fresh_gateways (known ++ [g]) rest
  end.

(** The panel of kind [k] registered for the gateway [g]. *)
Definition panel (k : ViewKind) (w : MainWindow) (g : Gateway)
  : option Widget :=
  views_of k (central_widget w) !! gw_id g.

(** The registry, the selected item, the title and the dialogs. *)
Definition undisturbed (w w' : MainWindow) : Prop :=
  same_registry w w' ∧ same_selection w w'.

(** The three panels of a new gateway are added. *)
Definition add_views (g : Gateway) (w : MainWindow) : MainWindow :=
  upd_central_widget (add_zkap_view g)
    (upd_central_widget (add_history_view g)
       (upd_central_widget (add_folders_view g) w)).

(** The current item of the combo box holds [g], whose three panels are
    registered, in a window built by [__init__]. *)
Definition selected (g : Gateway) (w : MainWindow) : Prop :=
  controls_built w ∧
  currentData (combo_box w) = Some g ∧
  ∀ k, is_Some (panel k w g).

(** [selected g w], with the current index [j], the index [i] kept by
    the combo box and [n] welcome dialogs opened so far. *)
Definition at_item (g : Gateway) (j i : Z) (n : nat) (w : MainWindow)
  : Prop :=
  selected g w ∧
  currentIndex (combo_box w) = j ∧
  current_index (combo_box w) = i ∧
  welcome_dialog w = n.

(** Every control is enabled, or every control is disabled, as the quota
    of the gateway [g] commands. *)
Definition enablement_of (g : Gateway) (w : MainWindow) : Prop :=
  all_controls (negb (quota_exhausted g)) w.

(** * Properties *)

(** ** The quit scan *)

Section QuitScan.
Import QuitGuard.

Lemma scan_rows_flag rows fl fs :
  fst (scan_rows rows fl fs) = true →
  fl = true ∨ loading_decides rows.
Proof.
  induction rows as [|r rest IH]; cbn; intros H; [by left|].
  fold (is_loading r) in *. fold (is_syncing r) in *.
  destruct (is_loading r) eqn:Hl.
  - right. exists [], r, rest. by repeat split.
  - destruct (is_syncing r) eqn:Hs; cbn in H; [by left|].
    destruct (IH H) as [?|(pre & row & post & -> & Hpre & Hrow)]; [by left|].
    right. exists (r :: pre), row, post. repeat split; [|done].
    by constructor.
Qed.

Lemma scan_rows_loading (pre : list Row) row post fl fs :
  Forall undecided pre → is_loading row = true →
  scan_rows (pre ++ row :: post)%list fl fs = (true, fs).
Proof.
  intros Hpre Hrow. induction Hpre as [|r pre [Hl Hs] _ IH]; cbn.
  - fold (is_loading row). by rewrite Hrow.
  - fold (is_loading r). fold (is_syncing r). by rewrite Hl, Hs.
Qed.

(** Once a loading folder has been seen, the flag stays set. *)
Lemma scan_rows_keeps_loading rows fs :
  fst (scan_rows rows true fs) = true.
Proof.
  revert fs. induction rows as [|r rest IH]; intros fs; cbn; [done|].
  destruct (_ && _); [done|]. destruct (bool_decide _); [done|]. apply IH.
Qed.

Lemma scan_models_flag models fl fs :
  fst (scan_models models fl fs) = true ↔
  fl = true ∨ Exists loading_decides models.
Proof.
  revert fl fs. induction models as [|m rest IH]; intros fl fs; cbn.
  - split; [by left|]. intros [?|H]; [done|]. by apply Exists_nil in H.
  - destruct (scan_rows m fl fs) as [fl' fs'] eqn:Hm. rewrite IH. split.
    + intros [->|H]; [|right; by right].
      assert (fst (scan_rows m fl fs) = true) as H by by rewrite Hm.
      apply scan_rows_flag in H as [?|H]; [by left|]. right. by left.
    + intros [->|H].
      * left. pose proof (scan_rows_keeps_loading m fs) as H.
        by rewrite Hm in H.
      * apply Exists_cons in H as [(pre & row & post & -> & Hpre & Hrow)|H];
          [|by right].
        left. rewrite scan_rows_loading in Hm by done. congruence.
Qed.

(** What the scan does: the quit dialog warns about loading exactly when,
    in some model, the first row that stops the inner loop is a loading
    one.  A loading row that comes after a syncing row of the same model
    is never reached. *)
Lemma classify_loading_iff models :
  classify models = Loading ↔ Exists loading_decides models.
Proof.
  unfold classify, scan.
  pose proof (scan_models_flag models false false) as H.
  destruct (scan_models models false false) as [[] fs]; cbn in *.
  - split; [intros _|done]. by destruct (proj1 H eq_refl).
  - split; [by destruct fs|]. intros HE.
    by discriminate (proj2 H (or_intror HE)).
Qed.

(** Across gateways the priority holds: a loading folder that is first
    in the model of its own gateway decides, whatever the other models
    hold. *)
Lemma classify_loading_other_gateway (before after : list Model) post :
  classify (before ++ (loading_row :: post) :: after)%list = Loading.
Proof.
  apply classify_loading_iff, Exists_app. right. left.
  exists [], loading_row, post. by repeat split.
Qed.

End QuitScan.

(** C1. A gateway whose folder model lists a syncing folder before a
    folder that has no status and no last-sync time: the scan leaves the
    model at the syncing row, the loading flag is never set, and
    [confirm_quit] builds the syncing warning, not the loading one. *)
Theorem confirm_quit_syncing_before_loading :
  let models := [[QuitGuard.syncing_row; QuitGuard.loading_row]] in
  map model (views (central_widget Sample.wQuit)) = models ∧
  QuitGuard.scan models = (false, true) ∧
  QuitGuard.classify models = QuitGuard.Syncing ∧
  confirm_quit Sample.APP_NAME "linux" false Sample.wQuit =
    Done (quit_box Sample.APP_NAME "linux" false true) Sample.wQuit.
Proof. by vm_compute. Qed.

(** The same two folders in the other order, or in two gateways, give
    the loading warning. *)
Example confirm_quit_loading_before_syncing :
  QuitGuard.classify [[QuitGuard.loading_row; QuitGuard.syncing_row]] =
    QuitGuard.Loading ∧
  QuitGuard.classify [[QuitGuard.syncing_row]; [QuitGuard.loading_row]] =
    QuitGuard.Loading.
Proof. by vm_compute. Qed.

(** ** Frames *)

Lemma same_frame_refl w : same_frame w w.
Proof. by constructor. Qed.

Lemma same_selection_refl w : same_selection w w.
Proof. by constructor. Qed.

Lemma same_frame_trans w1 w2 w3 :
  same_frame w1 w2 → same_frame w2 w3 → same_frame w1 w3.
Proof. intros [] []. constructor; try congruence; etrans; eauto. Qed.

Lemma controls_built_frame w w' :
  same_frame w w' → controls_built w → controls_built w'.
Proof.
  intros Hf Hc. unfold controls_built in *.
  rewrite (frame_grid_invites _ _ Hf). destruct (grid_invites_enabled w).
  - destruct Hc as [Hb Ha]. split.
    + by apply (frame_invites_button _ _ Hf).
    + by apply (frame_invite_action _ _ Hf).
  - apply eq_None_not_Some. rewrite (frame_invites_button _ _ Hf), Hc.
    by intros [? ?].
Qed.

Lemma currentData_frame w w' :
  same_frame w w' → same_selection w w' →
  currentData (combo_box w') = currentData (combo_box w).
Proof.
  intros Hf Hs. unfold currentData, itemData.
  by rewrite (frame_items _ _ Hf), (sel_currentIndex _ _ Hs).
Qed.

Lemma views_of_frame k w w' :
  same_frame w w' →
  views_of k (central_widget w') = views_of k (central_widget w).
Proof. intros Hf. destruct k; cbn; apply Hf. Qed.

(** [__init__] builds the invite controls as the flags say. *)
Lemma init_controls_built APP_NAME settings gui0 qt0 :
  controls_built (init APP_NAME settings gui0 qt0).
Proof.
  unfold controls_built, init.
  destruct (init_features settings) as [[[] invites] multiple_grids]; cbn;
    [split; [by eexists|]|]; done.
Qed.

(** ** Enablement *)

Lemma currentData_setEnabled b cb :
  currentData (cb_setEnabled b cb) = currentData cb.
Proof. reflexivity. Qed.

(** [try: self.invite_action.setEnabled(b) except AttributeError: pass]
    never raises. *)
Lemma try_invite_action f w :
  try_except (call_invite_action f) AttributeError (mret tt) w =
  Done tt (upd_invite_action (fmap f) w).
Proof.
  unfold try_except, call_invite_action.
  destruct (invite_action w) eqn:Ha.
  - unfold upd_invite_action. by rewrite Ha.
  - rewrite decide_True by done. destruct w; cbn in *. by subst.
Qed.

Lemma call_invites_button_built f w :
  is_Some (invites_button w) →
  call_invites_button f w = Done tt (upd_invites_button (fmap f) w).
Proof.
  intros [b Hb]. unfold call_invites_button, upd_invites_button.
  by rewrite Hb.
Qed.

Lemma fmap_setEnabled_enabled b (o : option Button) x :
  setEnabled b <$> o = Some x → enabled x = b.
Proof. destruct o; cbn; by intros [= <-]. Qed.

Ltac finish :=
  repeat split; cbn;
  try done; try (by intros []); try (by apply fmap_setEnabled_enabled);
  try (by rewrite fmap_is_Some); try (by rewrite fmap_None);
  try (by eauto).

Ltac absent_control :=
  match goal with
  | Hc : _ ∧ invite_action _ = None |- _ =>
      intros ? ?; destruct Hc; congruence
  | Hc : invites_button _ = None |- _ => intros ? ?; congruence
  end.

(** What [maybe_enable_actions] does for the current gateway [g]. *)
Lemma maybe_enable_actions_spec w g :
  controls_built w →
  currentData (combo_box w) = Some g →
  ∃ w', maybe_enable_actions w = Done tt w' ∧
        same_frame w w' ∧ same_selection w w' ∧
        systray_updates (gui w') = systray_updates (gui w) ∧
        all_controls (negb (quota_exhausted g)) w' ∧
        match forced_quota_view w with
        | Some z => currentWidget (central_widget w') = Some z ∧
                    only_checked Quota w'
        | None => same_view w w'
        end.
Proof.
  intros Hc Hg. unfold maybe_enable_actions, forced_quota_view.
  unfold shows_quota_first, mbind, M_bind, get, attr_of. rewrite Hg. cbn.
  fold (quota_exhausted g).
  assert (Hinv : ∀ b w0,
    invites_button w0 = invites_button w → invite_action w0 = invite_action w →
    ∃ w1, (if grid_invites_enabled w
           then call_invites_button (setEnabled b)
           else try_except (call_invite_action (setEnabled b))
                           AttributeError (mret tt)) w0 = Done tt w1 ∧
          w1 = (if grid_invites_enabled w
                then upd_invites_button (fmap (setEnabled b)) w0
                else upd_invite_action (fmap (setEnabled b)) w0)).
  { intros b w0 Hb Ha. unfold controls_built in Hc.
    destruct (grid_invites_enabled w).
    - eexists; split; [|done]. apply call_invites_button_built.
      rewrite Hb. apply Hc.
    - eexists; split; [|done]. apply try_invite_action. }
  unfold controls_built in Hc.
  destruct (quota_exhausted g) eqn:Hq; cbn [negb andb].
  - edestruct (Hinv false) as (w1 & -> & Hw1); [ | | clear Hinv ]; [done..|].
    destruct (truthy (magic_folders g)) eqn:Hm; cbn.
    + exists w1. split; [done|]. subst w1.
      destruct (grid_invites_enabled w); finish; absent_control.
    + assert (currentData (combo_box w1) = Some g) as ->
        by (subst w1; by destruct (grid_invites_enabled w)).
      assert (zkap_views (central_widget w1) = zkap_views (central_widget w))
        as -> by (subst w1; by destruct (grid_invites_enabled w)).
      cbn. destruct (zkap_views (central_widget w) !! gw_id g) eqn:Hz; cbn;
        (eexists; split; [done|]); subst w1;
        destruct (grid_invites_enabled w); finish; absent_control.
  - edestruct (Hinv true) as (w1 & -> & Hw1); [ | | clear Hinv ]; [done..|].
    exists w1. split; [done|]. subst w1.
    destruct (grid_invites_enabled w); finish; absent_control.
Qed.

Ltac built := vm_compute; split; [by eexists | reflexivity].

(** C7. For the current gateway of a window built by [__init__], when
    the gateway does not require ZKAPs, [maybe_enable_actions] returns
    and leaves every control of the toolbar enabled, whatever the number
    of ZKAPs remaining (zero and [None] included); the view shown is not
    changed. *)
Theorem enablement_without_zkap_auth w g :
  controls_built w →
  currentData (combo_box w) = Some g →
  zkap_auth_required g = false →
  ∃ w', maybe_enable_actions w = Done tt w' ∧
        all_controls true w' ∧ same_view w w'.
Proof.
  intros Hc Hg Hz.
  destruct (maybe_enable_actions_spec w g Hc Hg)
    as (w' & Hrun & _ & _ & _ & Hall & Hview).
  unfold forced_quota_view, shows_quota_first, quota_exhausted in *.
  rewrite Hg, Hz in *. by exists w'.
Qed.

Lemma enablement_without_zkap_auth_witness :
  zkaps_remaining Sample.gA = Some 0%Z ∧
  ∃ w', maybe_enable_actions Sample.wA = Done tt w' ∧
        all_controls true w' ∧ same_view Sample.wA w'.
Proof.
  split; [reflexivity|].
  apply (enablement_without_zkap_auth Sample.wA Sample.gA);
    [built | reflexivity | reflexivity].
Defined.

(** The same with the number of ZKAPs never set. *)
Example enablement_zkaps_unset :
  zkaps_remaining Sample.gC = None ∧
  all_controls true (exec maybe_enable_actions Sample.wAC).
Proof. vm_compute. repeat split; by intros ? [= <-]. Qed.

(** C3, as amended.  For the current gateway of a window built by
    [__init__], when the gateway requires ZKAPs, has zero left and has
    its quota panel registered, [maybe_enable_actions] returns and leaves
    every control of the toolbar disabled, the button of the quota panel
    included.  With no folders the quota panel becomes the current widget
    and its button the only checked one; with folders the view shown is
    not changed. *)
Theorem enablement_quota_exhausted w g z :
  controls_built w →
  currentData (combo_box w) = Some g →
  zkap_auth_required g = true →
  zkaps_remaining g = Some 0%Z →
  zkap_views (central_widget w) !! gw_id g = Some z →
  ∃ w', maybe_enable_actions w = Done tt w' ∧
        all_controls false w' ∧
        match magic_folders g with
        | [] => currentWidget (central_widget w') = Some z ∧
                only_checked Quota w'
        | _ :: _ => same_view w w'
        end.
Proof.
  intros Hc Hg Ha Hr Hz.
  destruct (maybe_enable_actions_spec w g Hc Hg)
    as (w' & Hrun & _ & _ & _ & Hall & Hview).
  unfold forced_quota_view, shows_quota_first, quota_exhausted in *.
  rewrite Hg, Ha, Hr in *. cbn in *. exists w'.
  split; [done|]. split; [done|].
  destruct (magic_folders g); cbn in *; [by rewrite Hz in Hview | done].
Qed.

Lemma enablement_quota_exhausted_witness :
  (∃ w', maybe_enable_actions Sample.wP_spent = Done tt w' ∧
         all_controls false w' ∧
         currentWidget (central_widget w') = Some 2 ∧
         only_checked Quota w') ∧
  (∃ w', maybe_enable_actions Sample.wD = Done tt w' ∧
         all_controls false w' ∧ same_view Sample.wD w').
Proof.
  split.
  - apply (enablement_quota_exhausted Sample.wP_spent Sample.gP_spent 2);
      [built | reflexivity..].
  - apply (enablement_quota_exhausted Sample.wD Sample.gD 2);
      [built | reflexivity..].
Defined.

(** C3, as stated, fails: the gateway of [wP_spent] requires ZKAPs, has
    none left and has no folders; the button of the quota panel was
    enabled, and [maybe_enable_actions] disables it with the others. *)
Lemma quota_button_is_disabled_too :
  currentData (combo_box Sample.wP_spent) = Some Sample.gP_spent ∧
  zkap_auth_required Sample.gP_spent = true ∧
  zkaps_remaining Sample.gP_spent = Some 0%Z ∧
  magic_folders Sample.gP_spent = [] ∧
  enabled (zkaps_button Sample.wP_spent) = true ∧
  returns (maybe_enable_actions Sample.wP_spent) = true ∧
  enabled (zkaps_button (exec maybe_enable_actions Sample.wP_spent)) = false.
Proof. by vm_compute. Qed.

(** ** Showing a view *)

Lemma current_view_gateway w x :
  current_view w = Some x → ∃ g, currentData (combo_box w) = Some g.
Proof.
  unfold current_view, dict_getitem.
  destruct (currentData (combo_box w)); [eauto | done].
Qed.

Lemma set_current_grid_status_spec w :
  controls_built w →
  ∃ w', set_current_grid_status w = Done tt w' ∧
        same_frame w w' ∧ same_selection w w' ∧
        match forced_on_show w with
        | Some z => currentWidget (central_widget w') = Some z ∧
                    only_checked Quota w'
        | None => same_view w w'
        end.
Proof.
  intros Hc. unfold set_current_grid_status, forced_on_show.
  unfold mbind, M_bind, get, modify.
  destruct (current_view w) as [x|] eqn:Hv.
  - destruct (current_view_gateway _ _ Hv) as [g Hg].
    destruct (maybe_enable_actions_spec (upd_gui systray_update w) g)
      as (w' & Hrun & Hf & Hs & _ & _ & Hview); [done..|].
    exists w'. split; [done|]. split; [|split].
    + destruct Hf. by constructor.
    + destruct Hs. by constructor.
    + exact Hview.
  - exists w. split; [done|]. finish.
Qed.

(** The three [show_*_view] methods at once. *)
Lemma show_view_spec k w :
  controls_built w →
  match dict_getitem (views_of k (central_widget w))
                     (currentData (combo_box w)) with
  | None => show_view k w = Done tt w
  | Some x =>
      ∃ w', show_view k w = Done tt w' ∧
            same_frame w w' ∧ same_selection w w' ∧
            match forced_on_show w with
            | Some z => currentWidget (central_widget w') = Some z ∧
                        only_checked Quota w'
            | None => currentWidget (central_widget w') = Some x ∧
                      only_checked k w'
            end
  end.
Proof.
  intros Hc.
  destruct (dict_getitem _ _) as [x|] eqn:Hx.
  - destruct k; cbn in Hx;
      unfold show_view, show_folders_view, show_history_view, show_zkap_view;
      unfold mbind, M_bind, get, modify; rewrite Hx;
      match goal with
      | |- ∃ _, set_current_grid_status ?w1 = _ ∧ _ =>
          destruct (set_current_grid_status_spec w1)
            as (w' & Hrun & Hf & Hs & Hview); [done|];
          change (forced_on_show w1) with (forced_on_show w) in Hview
      end;
      exists w'; (split; [done|]);
      (split; [destruct Hf; by constructor|]);
      (split; [destruct Hs; by constructor|]);
      (destruct (forced_on_show w); [done|]);
      destruct Hview as [Hcur Hchk];
      (split; [by rewrite Hcur|]);
      intros k'; rewrite Hchk; by destruct k'.
  - destruct k; cbn in Hx;
      unfold show_view, show_folders_view, show_history_view, show_zkap_view;
      unfold mbind, M_bind, get; by rewrite Hx.
Qed.

(** C10, as amended.  In a window built by [__init__], showing the view
    of kind [k] either finds no panel of that kind for the current
    gateway and returns with the window as it was, or returns with
    exactly one of the three panel buttons checked: the button of [k],
    with the panel of [k] current, unless the current gateway requires
    ZKAPs, has none left and has no folders, in which case the quota
    panel is current and the quota button is the one checked. *)
Theorem show_view_checks_one_button k w :
  controls_built w →
  match dict_getitem (views_of k (central_widget w))
                     (currentData (combo_box w)) with
  | None => show_view k w = Done tt w
  | Some x =>
      ∃ w', show_view k w = Done tt w' ∧
            match forced_on_show w with
            | Some z => currentWidget (central_widget w') = Some z ∧
                        only_checked Quota w'
            | None => currentWidget (central_widget w') = Some x ∧
                      only_checked k w'
            end
  end.
Proof.
  intros Hc. pose proof (show_view_spec k w Hc) as H.
  destruct (dict_getitem _ _); [|done].
  destruct H as (w' & Hrun & _ & _ & Hview). by exists w'.
Qed.

Lemma show_view_checks_one_button_witness :
  (∃ w', show_view History Sample.wAC = Done tt w' ∧
         currentWidget (central_widget w') = Some 4 ∧
         only_checked History w') ∧
  (∃ w', show_view Folders Sample.wB = Done tt w' ∧
         currentWidget (central_widget w') = Some 2 ∧
         only_checked Quota w') ∧
  show_view Quota Sample.w0 = Done tt Sample.w0.
Proof.
  split; [|split].
  - apply (show_view_checks_one_button History Sample.wAC). built.
  - apply (show_view_checks_one_button Folders Sample.wB). built.
  - apply (show_view_checks_one_button Quota Sample.w0). built.
Defined.

(** C10, as stated, fails: the gateway of [wB] has its folders panel
    registered, so [show_folders_view] succeeds, yet the button checked
    afterwards is the quota button and the quota panel is current. *)
Lemma show_folders_checks_quota_button :
  dict_getitem (folders_views (central_widget Sample.wB))
               (currentData (combo_box Sample.wB)) = Some 0 ∧
  returns (show_folders_view Sample.wB) = true ∧
  let w' := exec show_folders_view Sample.wB in
  checked (folders_button w') = false ∧
  checked (zkaps_button w') = true ∧
  currentWidget (central_widget w') = Some 2 ∧
  zkap_views (central_widget w') !! gw_id Sample.gB = Some 2.
Proof. by vm_compute. Qed.

(** ** Selecting a gateway *)

Lemma forced_on_show_None w g :
  currentData (combo_box w) = Some g → shows_quota_first g = false →
  forced_on_show w = None.
Proof.
  intros Hg Hq. unfold forced_on_show, forced_quota_view.
  rewrite Hg, Hq. by destruct (current_view w).
Qed.

Lemma restored_kind_only_checked k w :
  only_checked k w → restored_kind w = restored k.
Proof.
  intros Hk. unfold restored_kind, isChecked.
  specialize (Hk History). cbn in Hk. rewrite Hk. by destruct k.
Qed.

Section Selection.
Context (APP_NAME : string).

(** [on_grid_selected]: the view asked for is History when the History
    button is checked and Folders otherwise; the title is set when
    several grids are enabled. *)
Lemma on_grid_selected_spec index w :
  controls_built w →
  ∃ w', on_grid_selected APP_NAME index w = Done tt w' ∧
        same_frame w w' ∧
        currentIndex (combo_box w') = currentIndex (combo_box w) ∧
        match currentData (combo_box w) with
        | None => same_view w w' ∧ windowTitle w' = windowTitle w
        | Some g =>
            windowTitle w' = title_for APP_NAME w g ∧
            match dict_getitem (views_of (restored_kind w) (central_widget w))
                               (Some g) with
            | None => same_view w w'
            | Some x =>
                match forced_on_show w with
                | Some z => currentWidget (central_widget w') = Some z ∧
                            only_checked Quota w'
                | None => currentWidget (central_widget w') = Some x ∧
                          only_checked (restored_kind w) w'
                end
            end
        end.
Proof.
  intros Hc. unfold on_grid_selected, show_welcome_dialog.
  unfold mbind at 1 2 3, M_bind at 1 2 3, get at 1 2.
  set (w0 := if bool_decide (index = (count (combo_box w) - 1)%Z)
             then upd_welcome_dialog S w else w).
  assert (Hw0 : (if bool_decide (index = (count (combo_box w) - 1)%Z)
                 then modify (upd_welcome_dialog S) else mret ()) w
                = Done tt w0).
  { unfold w0. by destruct (bool_decide _). }
  rewrite Hw0. clear Hw0.
  assert (Hf0 : same_frame w w0)
    by (unfold w0; destruct (bool_decide _); by constructor).
  assert (Hi0 : combo_box w0 = combo_box w)
    by (unfold w0; by destruct (bool_decide _)).
  assert (Hv0 : same_view w w0)
    by (unfold w0; by destruct (bool_decide _)).
  assert (Hcw0 : central_widget w0 = central_widget w)
    by (unfold w0; by destruct (bool_decide _)).
  assert (Hh0 : history_button w0 = history_button w)
    by (unfold w0; by destruct (bool_decide _)).
  assert (Ht0 : windowTitle w0 = windowTitle w)
    by (unfold w0; by destruct (bool_decide _)).
  assert (Hc0 : controls_built w0) by eauto using controls_built_frame.
  clearbody w0. rewrite Hi0.
  destruct (currentData (combo_box w)) as [g|] eqn:Hg; cbn.
  2:{ exists w0. split; [done|]. rewrite Hi0. done. }
  pose proof (show_view_spec (restored_kind w) w0 Hc0) as Hshow.
  rewrite Hcw0, Hi0, Hg in Hshow.
  assert (Hsame : (if isChecked (history_button w0) then show_history_view
                   else show_folders_view) = show_view (restored_kind w)).
  { unfold restored_kind. rewrite Hh0. by destruct (isChecked _). }
  rewrite Hsame. clear Hsame.
  assert (Hfo : forced_on_show w0 = forced_on_show w).
  { unfold forced_on_show, forced_quota_view, current_view.
    by rewrite Hcw0, Hi0. }
  rewrite Hfo in Hshow. clear Hfo.
  unfold mbind, M_bind, get.
  assert (Htitle : ∀ w1, same_frame w0 w1 → same_selection w0 w1 →
    ∃ w', (if multiple_grids_enabled w1
           then λ w2, match attr_of (currentData (combo_box w1)) w2 with
                      | Done a w'0 =>
                          modify (upd_windowTitle
                                    (λ _, APP_NAME ++ " - " ++ name a)) w'0
                      | Raised e w'0 => Raised e w'0
                      end
           else (mret () : M unit)) w1 = Done tt w' ∧
          same_frame w w' ∧
          currentIndex (combo_box w') = currentIndex (combo_box w) ∧
          windowTitle w' = title_for APP_NAME w g ∧ same_view w1 w').
  { intros w1 Hf1 Hs1. unfold title_for.
    rewrite (frame_multiple_grids _ _ Hf1), (frame_multiple_grids _ _ Hf0).
    pose proof (currentData_frame _ _ Hf1 Hs1) as Hd. rewrite Hi0, Hg in Hd.
    pose proof (same_frame_trans _ _ _ Hf0 Hf1) as Hf.
    pose proof (sel_currentIndex _ _ Hs1) as Hi. rewrite Hi0 in Hi.
    pose proof (sel_windowTitle _ _ Hs1) as Ht. rewrite Ht0 in Ht.
    destruct (multiple_grids_enabled w).
    - rewrite Hd. cbn. eexists. split; [done|].
      split; [destruct Hf; by constructor|]. done.
    - exists w1. done. }
  destruct (dict_getitem _ (Some g)) as [x|] eqn:Hx; cbn in Hx; rewrite Hx.
  - destruct Hshow as (w1 & -> & Hf1 & Hs1 & Hview).
    destruct (Htitle w1 Hf1 Hs1) as (w' & Hrun & Hf & Hi & Ht & Hv').
    exists w'. split; [exact Hrun|].
    split; [done|]. split; [done|]. split; [done|].
    destruct Hv' as [Hcur' Hchk'].
    destruct (forced_on_show w); destruct Hview as [Hcur Hchk];
      (split; [by rewrite Hcur'|]); intros k'; by rewrite Hchk', Hchk.
  - rewrite Hshow.
    destruct (Htitle w0 (same_frame_refl _) (same_selection_refl _))
      as (w' & Hrun & Hf & Hi & Ht & Hv').
    exists w'. split; [exact Hrun|].
    split; [done|]. split; [done|]. split; [done|].
    destruct Hv0 as [Hc1 Hk1], Hv' as [Hc2 Hk2]. split; [congruence|].
    intros k'. by rewrite Hk2, Hk1.
Qed.

(** [setCurrentIndex] to another item that holds the gateway [g]. *)
Lemma setCurrentIndex_spec j w g x :
  controls_built w →
  currentIndex (combo_box w) ≠ j →
  itemData (combo_box w) j = Some g →
  shows_quota_first g = false →
  views_of (restored_kind w) (central_widget w) !! gw_id g = Some x →
  ∃ w', setCurrentIndex APP_NAME j w = Done tt w' ∧
        same_frame w w' ∧
        currentIndex (combo_box w') = j ∧
        currentWidget (central_widget w') = Some x ∧
        only_checked (restored_kind w) w' ∧
        windowTitle w' = title_for APP_NAME w g.
Proof.
  intros Hc Hne Hg Hq Hx. unfold setCurrentIndex, mbind, M_bind, get, modify.
  rewrite bool_decide_false by done.
  set (w0 := upd_combo_box (cb_set_currentIndex j) w).
  assert (Hf0 : same_frame w w0) by by constructor.
  assert (Hg0 : currentData (combo_box w0) = Some g) by done.
  destruct (on_grid_selected_spec j w0) as (w' & Hrun & Hf & Hi & Hrest).
  { by eapply controls_built_frame. }
  rewrite Hg0 in Hrest. destruct Hrest as [Ht Hview].
  change (restored_kind w0) with (restored_kind w) in Hview.
  change (central_widget w0) with (central_widget w) in Hview.
  cbn [dict_getitem] in Hview. rewrite Hx in Hview.
  rewrite (forced_on_show_None w0 g) in Hview by done.
  exists w'. split; [done|]. split; [by eapply same_frame_trans|].
  by destruct Hview.
Qed.

End Selection.

(** C8, as amended.  In a window built by [__init__], [on_grid_selected]
    returns; when the current item of the combo box holds a gateway, the
    title becomes the application name followed by the name of that
    gateway if the feature of several grids is enabled, and is left as it
    was if that feature is disabled, whatever the number of gateways;
    when the current item holds no gateway the title is left as it was. *)
Theorem on_grid_selected_title APP_NAME index w :
  controls_built w →
  ∃ w', on_grid_selected APP_NAME index w = Done tt w' ∧
        windowTitle w' =
          match currentData (combo_box w) with
          | Some g =>
              if multiple_grids_enabled w then APP_NAME ++ " - " ++ name g
              else windowTitle w
          | None => windowTitle w
          end.
Proof.
  intros Hc.
  destruct (on_grid_selected_spec APP_NAME index w Hc)
    as (w' & Hrun & _ & _ & Hrest).
  exists w'. split; [done|].
  destruct (currentData (combo_box w)); by destruct Hrest.
Qed.

Lemma on_grid_selected_title_witness :
  (∃ w', on_grid_selected Sample.APP_NAME 0 Sample.wA = Done tt w' ∧
         windowTitle w' = "Gridsync - A") ∧
  (∃ w', on_grid_selected Sample.APP_NAME 0 Sample.wAC_single = Done tt w' ∧
         windowTitle w' = "Gridsync").
Proof.
  split.
  - apply (on_grid_selected_title Sample.APP_NAME 0 Sample.wA). built.
  - apply (on_grid_selected_title Sample.APP_NAME 0 Sample.wAC_single). built.
Defined.

(** C8, as stated, fails in both directions.  With two gateways and the
    feature of several grids switched off, selecting the other gateway
    leaves the title without its name; with a single gateway and the
    default features, the selection made while the gateway is added sets
    the title to include its name. *)
Lemma title_follows_feature_not_count :
  (List.length (gateways Sample.wAC_single) = 2 ∧
   let w' := exec (setCurrentIndex Sample.APP_NAME 1) Sample.wAC_single in
   returns (setCurrentIndex Sample.APP_NAME 1 Sample.wAC_single) = true ∧
   currentData (combo_box w') = Some Sample.gA ∧
   windowTitle w' = "Gridsync") ∧
  (windowTitle Sample.w0 = "Gridsync" ∧
   returns (populate Sample.APP_NAME [Sample.gA] Sample.w0) = true ∧
   gateways Sample.wA = [Sample.gA] ∧
   windowTitle Sample.wA = "Gridsync - A").
Proof. by vm_compute. Qed.

(** C2, as amended.  In a window built by [__init__] with two gateways
    [G] and [H] in the combo box, both with their three panels
    registered and neither in the state that puts the quota panel in
    front, let [G] be current and the view of kind [k] be shown for it.
    After [H] is selected and [G] is selected again, the panel shown for
    [G] is its History panel if [k] was History and its Folders panel
    otherwise: the choice is read from the History button shared by all
    gateways, and a Quota view is not restored. *)
Theorem reselect_restores_history_or_folders APP_NAME i j G H k w :
  controls_built w →
  currentIndex (combo_box w) = i →
  itemData (combo_box w) i = Some G →
  itemData (combo_box w) j = Some H →
  gw_id G ≠ gw_id H →
  (∀ k', is_Some (views_of k' (central_widget w) !! gw_id G)) →
  (∀ k', is_Some (views_of k' (central_widget w) !! gw_id H)) →
  shows_quota_first G = false →
  shows_quota_first H = false →
  ∃ w1 w2 w3,
    show_view k w = Done tt w1 ∧
    setCurrentIndex APP_NAME j w1 = Done tt w2 ∧
    setCurrentIndex APP_NAME i w2 = Done tt w3 ∧
    currentWidget (central_widget w1) =
      views_of k (central_widget w) !! gw_id G ∧
    currentData (combo_box w2) = Some H ∧
    currentWidget (central_widget w2) =
      views_of (restored k) (central_widget w) !! gw_id H ∧
    currentData (combo_box w3) = Some G ∧
    currentWidget (central_widget w3) =
      views_of (restored k) (central_widget w) !! gw_id G.
Proof.
  intros Hc Hi HG HH Hne HrG HrH HqG HqH.
  assert (Hij : i ≠ j) by (intros ->; congruence).
  assert (HdG : currentData (combo_box w) = Some G)
    by (unfold currentData; by rewrite Hi).
  (* the view of kind [k] is shown for G *)
  pose proof (show_view_spec k w Hc) as Hshow.
  rewrite HdG in Hshow. cbn [dict_getitem] in Hshow.
  destruct (HrG k) as [x Hx]. rewrite Hx in Hshow.
  rewrite (forced_on_show_None w G) in Hshow by done.
  destruct Hshow as (w1 & Hrun1 & Hf1 & Hs1 & Hcur1 & Hchk1).
  pose proof (restored_kind_only_checked _ _ Hchk1) as Hk1.
  (* H is selected *)
  destruct (HrH (restored k)) as [y Hy].
  destruct (setCurrentIndex_spec APP_NAME j w1 H y)
    as (w2 & Hrun2 & Hf2 & Hi2 & Hcur2 & Hchk2 & _).
  { by eapply controls_built_frame. }
  { rewrite (sel_currentIndex _ _ Hs1). congruence. }
  { unfold itemData in *. by rewrite (frame_items _ _ Hf1). }
  { done. }
  { by rewrite Hk1, (views_of_frame _ _ _ Hf1). }
  rewrite Hk1 in Hchk2.
  pose proof (restored_kind_only_checked _ _ Hchk2) as Hk2.
  assert (restored (restored k) = restored k) as Hrr by by destruct k.
  rewrite Hrr in Hk2.
  pose proof (same_frame_trans _ _ _ Hf1 Hf2) as Hf12.
  (* G is selected again *)
  destruct (HrG (restored k)) as [z Hz].
  destruct (setCurrentIndex_spec APP_NAME i w2 G z)
    as (w3 & Hrun3 & Hf3 & Hi3 & Hcur3 & Hchk3 & _).
  { by eapply controls_built_frame. }
  { congruence. }
  { unfold itemData in *. by rewrite (frame_items _ _ Hf12). }
  { done. }
  { by rewrite Hk2, (views_of_frame _ _ _ Hf12). }
  exists w1, w2, w3. repeat split; try done.
  - congruence.
  - unfold currentData, itemData in *. by rewrite Hi2, (frame_items _ _ Hf12).
  - congruence.
  - unfold currentData, itemData in *.
    rewrite Hi3, (frame_items _ _ Hf3), (frame_items _ _ Hf12). done.
  - congruence.
Qed.

Lemma reselect_restores_history_or_folders_witness :
  ∃ w1 w2 w3,
    show_view History Sample.wAC = Done tt w1 ∧
    setCurrentIndex Sample.APP_NAME 1 w1 = Done tt w2 ∧
    setCurrentIndex Sample.APP_NAME 0 w2 = Done tt w3 ∧
    currentWidget (central_widget w1) =
      views_of History (central_widget Sample.wAC) !! gw_id Sample.gC ∧
    currentData (combo_box w2) = Some Sample.gA ∧
    currentWidget (central_widget w2) =
      views_of (restored History) (central_widget Sample.wAC)
        !! gw_id Sample.gA ∧
    currentData (combo_box w3) = Some Sample.gC ∧
    currentWidget (central_widget w3) =
      views_of (restored History) (central_widget Sample.wAC)
        !! gw_id Sample.gC.
Proof.
  apply (reselect_restores_history_or_folders
           Sample.APP_NAME 0%Z 1%Z Sample.gC Sample.gA History Sample.wAC).
  - built.
  - reflexivity.
  - reflexivity.
  - reflexivity.
  - vm_compute. lia.
  - intros []; vm_compute; by eexists.
  - intros []; vm_compute; by eexists.
  - reflexivity.
  - reflexivity.
Defined.

(** C2, as stated, fails for the Quota view: the quota panel of C is
    shown, A is selected, C is selected again, and the panel shown for C
    is its folders panel, not its quota panel. *)
Lemma reselect_forgets_quota_view :
  let w1 := exec (show_view Quota) Sample.wAC in
  let w2 := exec (setCurrentIndex Sample.APP_NAME 1) w1 in
  let w3 := exec (setCurrentIndex Sample.APP_NAME 0) w2 in
  List.length (gateways Sample.wAC) = 2 ∧
  currentData (combo_box Sample.wAC) = Some Sample.gC ∧
  currentWidget (central_widget w1) =
    zkap_views (central_widget Sample.wAC) !! gw_id Sample.gC ∧
  currentData (combo_box w2) = Some Sample.gA ∧
  currentData (combo_box w3) = Some Sample.gC ∧
  currentWidget (central_widget w3) =
    folders_views (central_widget Sample.wAC) !! gw_id Sample.gC ∧
  currentWidget (central_widget w3) ≠
    zkap_views (central_widget Sample.wAC) !! gw_id Sample.gC.
Proof. vm_compute. repeat split; done. Qed.

(** ** News messages *)

Lemma gateway_eqb_refl g : gateway_eqb g g = true.
Proof. unfold gateway_eqb. by rewrite bool_decide_eq_true. Qed.

Lemma msg_eqb_refl m : msg_eqb m m = true.
Proof.
  destruct m as [[g t] b]. unfold msg_eqb.
  rewrite gateway_eqb_refl. by rewrite !bool_decide_true.
Qed.

(** [list.remove] takes out the first element equal to the argument. *)
Lemma list_remove_first_Some x (l1 : list Msg) y l2 :
  Forall (λ z, msg_eqb z x = false) l1 → msg_eqb y x = true →
  list_remove_first x (l1 ++ y :: l2)%list = Some (l1 ++ l2)%list.
Proof.
  intros H1 Hy. induction H1 as [|z l1 Hz _ IH]; cbn.
  - by rewrite Hy.
  - by rewrite Hz, IH.
Qed.

Lemma list_remove_first_None x (l : list Msg) :
  list_remove_first x l = None ↔ Forall (λ z, msg_eqb z x = false) l.
Proof.
  induction l as [|z l IH]; cbn; [done|].
  destruct (msg_eqb z x) eqn:Hz.
  - split; [done|]. intros H. apply Forall_cons in H as [? _]. congruence.
  - destruct (list_remove_first x l).
    + split; [done|]. intros H. apply Forall_cons in H as [_ H].
      by apply IH in H.
    + split; [|done]. intros _. constructor; [done|]. by apply IH.
Qed.

Lemma list_remove_first_split x (l rest : list Msg) :
  list_remove_first x l = Some rest →
  ∃ (l1 : list Msg) y l2,
    l = (l1 ++ y :: l2)%list ∧ rest = (l1 ++ l2)%list ∧
    Forall (λ z, msg_eqb z x = false) l1 ∧ msg_eqb y x = true.
Proof.
  revert rest. induction l as [|z l IH]; cbn; intros rest; [done|].
  destruct (msg_eqb z x) eqn:Hz.
  - intros [= <-]. by exists [], z, l.
  - destruct (list_remove_first x l) as [rest'|]; [|done].
    intros [= <-].
    destruct (IH _ eq_refl) as (l1 & y & l2 & -> & -> & H1 & Hy).
    exists (z :: l1), y, l2. repeat split; [|done]. by constructor.
Qed.

Lemma show_news_message_run m w :
  show_news_message m w =
  Done tt
    match list_remove_first m (unread_messages (gui w)) with
    | Some rest =>
        upd_gui systray_update
          (upd_gui (set_unread_messages rest) (upd_qt (msgbox_show m) w))
    | None => upd_qt (msgbox_show m) w
    end.
Proof.
  unfold show_news_message, mbind, M_bind, modify, get. cbn.
  by destruct (list_remove_first _ _).
Qed.

(** C5, as amended.  [show_news_message] always returns, after showing
    the message box.  Either the tuple is in the unread messages, and
    then its first occurrence, and nothing else, is removed and the
    system tray is updated once; or it is not there, and then the unread
    messages are left as they were and the system tray is not updated. *)
Theorem show_news_message_unread w m :
  ∃ w', show_news_message m w = Done tt w' ∧
        msgboxes (qt w') = (msgboxes (qt w) ++ [m])%list ∧
        ((∃ (l1 : list Msg) y l2,
            unread_messages (gui w) = (l1 ++ y :: l2)%list ∧
            Forall (λ z, msg_eqb z m = false) l1 ∧ msg_eqb y m = true ∧
            unread_messages (gui w') = (l1 ++ l2)%list ∧
            systray_updates (gui w') = S (systray_updates (gui w)))
         ∨
         (Forall (λ z, msg_eqb z m = false) (unread_messages (gui w)) ∧
          unread_messages (gui w') = unread_messages (gui w) ∧
          systray_updates (gui w') = systray_updates (gui w))).
Proof.
  rewrite show_news_message_run. eexists. split; [done|].
  destruct (list_remove_first m (unread_messages (gui w))) as [rest|] eqn:Hr.
  - split; [done|]. left.
    destruct (list_remove_first_split _ _ _ Hr)
      as (l1 & y & l2 & Hl & -> & H1 & Hy).
    by exists l1, y, l2.
  - split; [done|]. right. by apply list_remove_first_None in Hr.
Qed.

(** C5, as stated, fails: with no unread message, [show_news_message]
    returns, leaves the list as it was, and the system tray is not
    updated. *)
Lemma absent_message_no_systray_update :
  unread_messages (gui Sample.w0) = [] ∧
  returns (show_news_message Sample.m1 Sample.w0) = true ∧
  let w' := exec (show_news_message Sample.m1) Sample.w0 in
  unread_messages (gui w') = unread_messages (gui Sample.w0) ∧
  systray_updates (gui w') = systray_updates (gui Sample.w0).
Proof. by vm_compute. Qed.

(** While the window is hidden, each message is appended to the unread
    messages and takes the place of the pending one. *)
Lemma enqueue_hidden m w :
  isVisible w = false →
  _maybe_show_news_message m w =
  Done tt
    (upd_pending_news_message (λ _, Some m)
       (upd_gui systray_update
          (upd_gui
             (λ g, set_unread_messages (unread_messages g ++ [m]) g) w))).
Proof.
  intros H. unfold _maybe_show_news_message, mbind, M_bind, modify, get. cbn.
  by rewrite H.
Qed.

Lemma enqueue_all_hidden ms w :
  isVisible w = false →
  ∃ w', enqueue_all ms w = Done tt w' ∧
        isVisible w' = false ∧ qt w' = qt w ∧
        unread_messages (gui w') = (unread_messages (gui w) ++ ms)%list ∧
        systray_updates (gui w') = systray_updates (gui w) + List.length ms ∧
        pending_news_message w' =
          match last ms with
          | Some m => Some m
          | None => pending_news_message w
          end.
Proof.
  revert w. induction ms as [|m ms IH]; intros w Hv; cbn.
  - exists w. rewrite app_nil_r, Nat.add_0_r. by repeat split.
  - unfold mbind, M_bind. rewrite enqueue_hidden by done.
    edestruct IH as (w' & -> & Hv' & Hq & Hu & Hs & Hp); [|exists w'].
    { done. }
    split; [done|]. split; [done|]. split; [done|].
    cbn in *. rewrite Hu, Hs, Hp, <- app_assoc.
    split; [done|]. split; [lia|].
    destruct ms as [|m' ms]; [done|].
    change (last (m :: m' :: ms)) with (last (m' :: ms)).
    by destruct (last (m' :: ms)) eqn:Hl; [|apply last_None in Hl].
Qed.

Lemma showEvent_pending m w :
  pending_news_message w = Some m →
  showEvent w =
  Done tt (upd_qt (singleShot m) (upd_pending_news_message (λ _, None) w)).
Proof.
  intros H. unfold showEvent, mbind, M_bind, modify, get. by rewrite H.
Qed.

(** C4.  Messages [ms] and then [m] arrive while the window is hidden
    and no timer is waiting.  Afterwards the pending message is [m] alone
    and the unread messages have grown by all of them.  [showEvent] then
    clears the pending message and schedules the display of [m] only,
    the unread messages staying as they are; the next tick of the event
    loop shows the one message box for [m] and takes one entry equal to
    [m] out of the unread messages. *)
Theorem hidden_enqueues_keep_last w (ms : list Msg) m :
  isVisible w = false →
  timers (qt w) = [] →
  ∃ w1 w2 w3,
    enqueue_all (ms ++ [m])%list w = Done tt w1 ∧
    showEvent w1 = Done tt w2 ∧
    next_tick w2 = Done tt w3 ∧
    (* after the messages have arrived *)
    pending_news_message w1 = Some m ∧
    unread_messages (gui w1) = (unread_messages (gui w) ++ ms ++ [m])%list ∧
    msgboxes (qt w1) = msgboxes (qt w) ∧
    (* after the window is shown *)
    pending_news_message w2 = None ∧
    timers (qt w2) = [m] ∧
    msgboxes (qt w2) = msgboxes (qt w) ∧
    unread_messages (gui w2) = unread_messages (gui w1) ∧
    (* after the deferred display *)
    timers (qt w3) = [] ∧
    msgboxes (qt w3) = (msgboxes (qt w) ++ [m])%list ∧
    list_remove_first m (unread_messages (gui w1)) =
      Some (unread_messages (gui w3)).
Proof.
  intros Hv Ht.
  destruct (enqueue_all_hidden (ms ++ [m]) w Hv)
    as (w1 & Hrun & Hv1 & Hq1 & Hu1 & _ & Hp1).
  rewrite last_snoc in Hp1.
  assert (is_Some (list_remove_first m (unread_messages (gui w1))))
    as [rest Hr].
  { destruct (list_remove_first m (unread_messages (gui w1))) eqn:Hn; [eauto|].
    apply list_remove_first_None in Hn. rewrite Hu1, app_assoc in Hn.
    apply Forall_app in Hn as [_ Hn]. apply Forall_inv in Hn.
    by rewrite msg_eqb_refl in Hn. }
  set (w2 := upd_qt (singleShot m) (upd_pending_news_message (λ _, None) w1)).
  set (w3 := upd_gui systray_update
               (upd_gui (set_unread_messages rest)
                  (upd_qt (msgbox_show m) (upd_qt (set_timers []) w2)))).
  exists w1, w2, w3.
  split; [exact Hrun|].
  split; [by apply showEvent_pending|].
  split.
  { unfold next_tick, mbind, M_bind, get, modify. cbn.
    rewrite Hq1, Ht. cbn. rewrite show_news_message_run. cbn. by rewrite Hr. }
  cbn. rewrite Hq1, Ht, Hr. by repeat split.
Qed.

Lemma hidden_enqueues_keep_last_witness :
  ∃ w1 w2 w3,
    enqueue_all ([Sample.m1] ++ [Sample.m2])%list Sample.wA = Done tt w1 ∧
    showEvent w1 = Done tt w2 ∧
    next_tick w2 = Done tt w3 ∧
    pending_news_message w1 = Some Sample.m2 ∧
    unread_messages (gui w1) =
      (unread_messages (gui Sample.wA) ++ [Sample.m1] ++ [Sample.m2])%list ∧
    msgboxes (qt w1) = msgboxes (qt Sample.wA) ∧
    pending_news_message w2 = None ∧
    timers (qt w2) = [Sample.m2] ∧
    msgboxes (qt w2) = msgboxes (qt Sample.wA) ∧
    unread_messages (gui w2) = unread_messages (gui w1) ∧
    timers (qt w3) = [] ∧
    msgboxes (qt w3) = (msgboxes (qt Sample.wA) ++ [Sample.m2])%list ∧
    list_remove_first Sample.m2 (unread_messages (gui w1)) =
      Some (unread_messages (gui w3)).
Proof.
  apply (hidden_enqueues_keep_last Sample.wA [Sample.m1] Sample.m2);
    reflexivity.
Defined.

(** The two sample messages, step by step: both are unread until the
    second has been displayed, and the first stays unread after that. *)
Example two_hidden_messages :
  let w1 := exec (enqueue_all [Sample.m1; Sample.m2]) Sample.wA in
  let w2 := exec showEvent w1 in
  let w3 := exec next_tick w2 in
  pending_news_message w1 = Some Sample.m2 ∧
  unread_messages (gui w1) = [Sample.m1; Sample.m2] ∧
  unread_messages (gui w2) = [Sample.m1; Sample.m2] ∧
  timers (qt w2) = [Sample.m2] ∧
  msgboxes (qt w3) = [Sample.m2] ∧
  unread_messages (gui w3) = [Sample.m1] ∧
  unread_messages (gui (exec (show_news_message Sample.m1) w3)) = [].
Proof. by vm_compute. Qed.

(** ** Preferences *)

Section Preferences.
Import Prefs.
Context (config_dir : string).

Lemma Config_get_set config section opt value files :
  Config_get config section opt (Config_set config section opt value files)
  = Ok value.
Proof. unfold Config_get, Config_set. by rewrite !lookup_insert_eq. Qed.

Lemma Config_get_set_other config section opt value section' opt' files :
  (section, opt) ≠ (section', opt') →
  Config_get config section' opt'
    (Config_set config section opt value files)
  = Config_get config section' opt' files.
Proof.
  intros Hne. unfold Config_get, Config_set. rewrite lookup_insert_eq.
  destruct (decide (section = section')) as [<-|Hs].
  - rewrite lookup_insert_eq.
    rewrite lookup_insert_ne by congruence.
    destruct (files !! filename config) as [ini|]; cbn; [|done].
    by destruct (ini !! section).
  - rewrite lookup_insert_ne by done.
    by destruct (files !! filename config).
Qed.

Lemma get_never_set self (writes : list (string * string * string))
    section opt files :
  Preferences_get config_dir self section opt files = Fail NotFound →
  Forall (λ '(s, o, _), (s, o) ≠ (section, opt)) writes →
  Preferences_get config_dir self section opt
    (set_all config_dir self writes files) = Fail NotFound.
Proof.
  intros Hget Hw. revert files Hget.
  induction Hw as [|[[s o] v] writes Hne _ IH]; intros files Hget; cbn;
    [done|].
  apply IH. unfold Preferences_get, Preferences_set, get_preference,
    set_preference in *. by rewrite Config_get_set_other.
Qed.

(** C6.  With the configuration file modelled as the specification
    describes it, [get] after [set] of the same section and option
    returns the value written, whatever the files held before; and after
    any run of [set] calls on an empty disk, none of them for the pair of
    section and option asked for, [get] fails with [NotFound]. *)
Theorem preference_round_trip self section opt value files
    (writes : list (string * string * string)) :
  Forall (λ '(s, o, _), (s, o) ≠ (section, opt)) writes →
  Preferences_get config_dir self section opt
    (Preferences_set config_dir self section opt value files) = Ok value ∧
  Preferences_get config_dir self section opt
    (set_all config_dir self writes ∅) = Fail NotFound.
Proof.
  intros Hw. split.
  - apply Config_get_set.
  - by apply get_never_set.
Qed.

End Preferences.

Lemma preference_round_trip_witness :
  let self := Prefs.Preferences_default "/home/user/.config/gridsync" in
  Prefs.Preferences_get "/home/user/.config/gridsync" self
    "features" "invites"
    (Prefs.Preferences_set "/home/user/.config/gridsync" self
       "features" "invites" "false" ∅) = Prefs.Ok "false" ∧
  Prefs.Preferences_get "/home/user/.config/gridsync" self
    "features" "invites"
    (Prefs.set_all "/home/user/.config/gridsync" self
       [("features", "grid_invites", "true"); ("ui", "invites", "x")] ∅)
    = Prefs.Fail Prefs.NotFound.
Proof.
  apply (preference_round_trip "/home/user/.config/gridsync").
  repeat constructor; by vm_compute.
Defined.

(** ** Feature flags *)

Lemma flag_is_false_iff value :
  flag_is_false value = true ↔
  ∃ s, value = Some s ∧ s ≠ "" ∧ lower s = "false".
Proof.
  destruct value as [s|]; cbn.
  - rewrite andb_true_iff, bool_decide_eq_true. split.
    + intros [Ht Hl]. exists s. repeat split; [|done]. by intros ->.
    + intros (? & [= <-] & Hne & Hl). split; [|done]. by destruct s.
  - split; [done|]. by intros (? & ? & _).
Qed.

Lemma feature_off_iff settings key :
  feature_off settings key = true ↔ stored_false settings key.
Proof.
  unfold feature_off, stored_false.
  destruct (settings !! "features") as [features|].
  - destruct (truthy features) eqn:Ht.
    + rewrite flag_is_false_iff. split.
      * intros (s & ? & ? & ?). by exists features, s.
      * intros (? & s & [= <-] & ? & ? & ?). by exists s.
    + split; [done|]. intros (? & s & [= <-] & Hk & _).
      unfold truthy, truthy_dict in Ht. apply negb_false_iff in Ht.
      apply bool_decide_eq_true in Ht. subst. by rewrite lookup_empty in Hk.
  - split; [done|]. by intros (? & ? & ? & _).
Qed.

Lemma init_features_off settings :
  init_features settings =
    (negb (feature_off settings "grid_invites"),
     negb (feature_off settings "invites"),
     negb (feature_off settings "multiple_grids")).
Proof.
  unfold init_features, feature_off.
  destruct (settings !! "features") as [features|]; [|done].
  destruct (truthy features); [|done].
  by destruct (flag_is_false (features !! "grid_invites")),
    (flag_is_false (features !! "invites")),
    (flag_is_false (features !! "multiple_grids")).
Qed.

(** C9.  Each of the three features is disabled by [__init__] exactly
    when the settings hold, in the section "features" and under the
    option of that feature, a non-empty value whose lower-case form is
    "false"; with any other value, or without the section or the option,
    the feature stays enabled. *)
Theorem feature_disabled_iff APP_NAME settings gui0 qt0 :
  let w := init APP_NAME settings gui0 qt0 in
  (grid_invites_enabled w = false ↔ stored_false settings "grid_invites") ∧
  (invites_enabled w = false ↔ stored_false settings "invites") ∧
  (multiple_grids_enabled w = false ↔
     stored_false settings "multiple_grids").
Proof.
  unfold init. rewrite init_features_off. cbn.
  rewrite !negb_false_iff, !feature_off_iff. done.
Qed.

(** The values named in the claim. *)
Example flag_values :
  flag_is_false (Some "false") = true ∧
  flag_is_false (Some "FALSE") = true ∧
  flag_is_false (Some "False") = true ∧
  flag_is_false (Some "0") = false ∧
  flag_is_false (Some "no") = false ∧
  flag_is_false (Some "FALSE ") = false ∧
  flag_is_false (Some "") = false ∧
  flag_is_false (Some "true") = false ∧
  flag_is_false None = false.
Proof. by vm_compute. Qed.

Example features_of_sample_windows :
  (grid_invites_enabled Sample.w0, invites_enabled Sample.w0,
   multiple_grids_enabled Sample.w0) = (true, true, true) ∧
  (grid_invites_enabled Sample.w0_single, invites_enabled Sample.w0_single,
   multiple_grids_enabled Sample.w0_single) = (true, true, false).
Proof. by vm_compute. Qed.
